(** * Med-Chat-Bot: the retrieval and answer pipeline

    A shallow embedding of [utils/retrieval_qa.py] and of the [/query]
    handler of [app.py].

    - A Python [str] is a sequence of Unicode code points: [pystr] is a
      list of [N].  String methods ([replace], [strip], [lower], [in],
      [join], slicing, [str.format]) are functions on such lists.
    - [print], the similarity search and the completion endpoint are
      effects.  A computation returns the trace of the events it
      produced together with a value or the exception it raised.
    - Relevance scores are binary64 floats ([PrimFloat.float]); the
      format specification [.2f] is computed exactly from the float's
      mantissa and exponent. *)

From Stdlib Require Import Ascii String DecimalString DecimalFacts DecimalN.
From Stdlib Require Import List NArith ZArith Bool Lia Arith.
From Stdlib Require Import Floats.PrimFloat Floats.SpecFloat Floats.FloatOps.
Import ListNotations.

Set Warnings "-register-all".
Local Open Scope N_scope.

(** ** Python strings *)

Definition codepoint := N.
Definition pystr := list codepoint.

(** An ASCII literal of the source, as code points. *)
Definition lit (s : string) : pystr :=
  map N_of_ascii (list_ascii_of_string s).

Definition nl : codepoint := 10.
Definition star : codepoint := 42.

(** [s.startswith(p)] *)
Fixpoint startswith (s p : pystr) : bool :=
  match p, s with
  | [], _ => true
  | _ :: _, [] => false
  | a :: p', b :: s' => (a =? b) && startswith s' p'
  end.

(** [s.endswith(p)] *)
Definition endswith (s p : pystr) : bool :=
  startswith (rev s) (rev p).

(** [p in s] for two strings: [p] occurs in [s] as a substring. *)
Fixpoint contains (p s : pystr) : bool :=
  startswith s p ||
  match s with
  | [] => false
  | _ :: rest => contains p rest
  end.

(** [s.replace(old, new)]: the occurrences of [old] are found from left
    to right and do not overlap; the text after a replaced occurrence is
    scanned on, the replacement itself is not scanned again.  [skip]
    counts the code points of a matched occurrence still to pass. *)
Fixpoint replace_from (old new : pystr) (skip : nat) (s : pystr) : pystr :=
  match s with
  | [] => match old with [] => new | _ :: _ => [] end
  | c :: rest =>
      match skip with
      | S k => replace_from old new k rest
      | O =>
          if startswith s old then
            match old with
            | [] => new ++ c :: replace_from old new O rest
            | _ :: old' => new ++ replace_from old new (length old') rest
            end
          else c :: replace_from old new O rest
      end
  end.

Definition replace (old new s : pystr) : pystr := replace_from old new O s.

(** [str.isspace] for one code point: the white space of the Unicode
    character database, as the interpreter has it. *)
Definition isspace (c : codepoint) : bool :=
  ((9 <=? c) && (c <=? 13)) || ((28 <=? c) && (c <=? 32)) ||
  (c =? 133) || (c =? 160) || (c =? 5760) ||
  ((8192 <=? c) && (c <=? 8202)) ||
  (c =? 8232) || (c =? 8233) || (c =? 8239) || (c =? 8287) || (c =? 12288).

Fixpoint lstrip (s : pystr) : pystr :=
  match s with
  | [] => []
  | c :: rest => if isspace c then lstrip rest else s
  end.

Definition rstrip (s : pystr) : pystr := rev (lstrip (rev s)).

(** [s.strip()] *)
Definition strip (s : pystr) : pystr := rstrip (lstrip s).

(** [sep.join(parts)] *)
Fixpoint join (sep : pystr) (parts : list pystr) : pystr :=
  match parts with
  | [] => []
  | [p] => p
  | p :: rest => p ++ sep ++ join sep rest
  end.

(** [str(n)] for a non-negative integer. *)
Definition str_of_N (n : N) : pystr :=
  lit (NilZero.string_of_uint (N.to_uint n)).

Definition str_of_nat (n : nat) : pystr := str_of_N (N.of_nat n).

(** ** [format_medical_response] *)

Definition format_medical_response (response : pystr) : pystr :=
  let response := replace (lit "**") [] response in
  let response := replace (lit "*") [] response in
  let response := replace [nl; nl; nl] [nl; nl] response in
  let response := strip response in
  let disclaimer : pystr := [] in
  if negb (endswith response (strip disclaimer))
  then response ++ disclaimer
  else response.

(** ** [validate_medical_query] *)

Definition medical_indicators : list pystr :=
  map lit
    ["symptom"; "disease"; "condition"; "treatment"; "medicine"; "medication";
     "diagnosis"; "doctor"; "hospital"; "pain"; "fever"; "infection";
     "medical"; "health"; "illness"; "therapy"; "surgery"; "procedure";
     "blood"; "heart"; "lung"; "brain"; "liver"; "kidney"; "cancer";
     "diabetes"; "hypertension"; "pneumonia"; "what is"; "how to treat";
     "causes of"; "prevention"; "cure"; "relief"]%string.

Section Validator.

(** [str.lower] maps the letters A-Z to a-z.  Outside ASCII it follows
    the case tables of the Unicode database, which belong to the
    interpreter and not to this repository: they are the parameter
    [lower_nonascii], from a code point to the code points that
    replace it. *)
Variable lower_nonascii : codepoint -> pystr.

Definition lower_codepoint (c : codepoint) : pystr :=
  if c <? 128 then
    [if (65 <=? c) && (c <=? 90) then c + 32 else c]
  else lower_nonascii c.

Definition lower (s : pystr) : pystr := flat_map lower_codepoint s.

Definition validate_medical_query (query : pystr) : bool :=
  let query_lower := lower query in
  existsb (fun indicator => contains indicator query_lower)
          medical_indicators.

End Validator.

(** ** Exceptions, events and computations *)

Inductive exn_class : Type :=
| TypeError
| ValueError
| KeyError
| IndexError
| AttributeError
| OtherException (name : pystr)     (* any other class derived from [Exception] *)
| BaseExceptionOnly (name : pystr). (* [KeyboardInterrupt], [SystemExit], ... *)

Record exn : Type := Raised { exn_class_of : exn_class; exn_message : pystr }.

(** [isinstance(e, Exception)]: what [except Exception] catches. *)
Definition is_Exception (e : exn) : bool :=
  match exn_class_of e with
  | BaseExceptionOnly _ => false
  | _ => true
  end.

(** The keyword arguments of [chat.completions.create]. *)
Record ChatMessage : Type := { role : pystr; content : pystr }.

Record ChatRequest : Type := {
  model : pystr;
  messages : list ChatMessage;
  temperature : float;
  max_tokens : Z;
  top_p : float;
  stream : bool
}.

(** What the endpoint answers: [completion.choices[i].message.content],
    where a message may carry no content ([None]). *)
Record Choice : Type := { message_content : option pystr }.
Record ChatCompletion : Type := { choices : list Choice }.

Inductive event : Type :=
| Print (line : pystr)
| SearchCall (query : pystr) (k : Z)
| CompletionCall (request : ChatRequest).

(** How a computation ends.  [Unmodelled] marks behaviour of the
    interpreter that this development does not describe; no theorem
    below is about a run that ends there. *)
Inductive outcome (A : Type) : Type :=
| Returns (a : A)
| Raises (e : exn)
| Unmodelled.
Arguments Returns {A} a.
Arguments Raises {A} e.
Arguments Unmodelled {A}.

Definition M (A : Type) : Type := (list event * outcome A)%type.

Definition ret {A} (a : A) : M A := ([], Returns a).
Definition raise {A} (e : exn) : M A := ([], Raises e).
Definition emit (ev : event) : M unit := ([ev], Returns tt).
Definition print (line : pystr) : M unit := emit (Print line).
Definition lift {A} (r : outcome A) : M A := ([], r).

Definition bind {A B} (m : M A) (f : A -> M B) : M B :=
  match m with
  | (t, Returns a) => let (t', r) := f a in (t ++ t', r)
  | (t, Raises e) => (t, Raises e)
  | (t, Unmodelled) => (t, Unmodelled)
  end.

(** [try: m  except Exception as e: handler e] *)
Definition try_except {A} (m : M A) (handler : exn -> M A) : M A :=
  match m with
  | (t, Raises e) =>
      if is_Exception e
      then let (t', r) := handler e in (t ++ t', r)
      else (t, Raises e)
  | other => other
  end.

Notation "x <- m ;; k" := (bind m (fun x => k))
  (at level 61, m at next level, right associativity).
Notation "m ;; k" := (bind m (fun _ => k))
  (at level 61, right associativity).

Definition trace_of {A} (m : M A) : list event := fst m.
Definition result_of {A} (m : M A) : outcome A := snd m.

(** ** [str.format] with keyword arguments

    The format string is read from left to right: [{{] and [}}] stand
    for one brace, [{name}] is replaced by the keyword argument [name],
    inserted as it is (the value is not read as a format string).  A
    replacement field with a conversion ([!]), a format specification
    ([:]), an attribute or an index is [Unmodelled]: the template of
    this repository has none. *)

Definition lbrace : codepoint := 123.
Definition rbrace : codepoint := 125.

Fixpoint lookup_kwarg (kwargs : list (pystr * pystr)) (name : pystr)
  : option pystr :=
  match kwargs with
  | [] => None
  | (k, v) :: rest =>
      if list_eq_dec N.eq_dec k name then Some v else lookup_kwarg rest name
  end.

Definition is_digit (c : codepoint) : bool := (48 <=? c) && (c <=? 57).

Definition field_value (kwargs : list (pystr * pystr)) (name : pystr)
  : outcome pystr :=
  match name with
  | [] =>
      Raises (Raised IndexError
        (lit "Replacement index 0 out of range for positional args tuple"))
  | _ :: _ =>
      if forallb is_digit name then
        Raises (Raised IndexError
          (lit "Replacement index " ++ name ++
           lit " out of range for positional args tuple"))
      else
        match lookup_kwarg kwargs name with
        | Some v => Returns v
        | None => Raises (Raised KeyError (lit "'" ++ name ++ lit "'"))
        end
  end.

Definition outcome_map {A B} (f : A -> B) (r : outcome A) : outcome B :=
  match r with
  | Returns a => Returns (f a)
  | Raises e => Raises e
  | Unmodelled => Unmodelled
  end.

(** [field] is [None] in literal text and [Some acc] inside a
    replacement field, [acc] the name read so far, last code point
    first. *)
Fixpoint format_from (kwargs : list (pystr * pystr)) (field : option pystr)
  (t : pystr) : outcome pystr :=
  match field with
  | None =>
      match t with
      | [] => Returns []
      | c :: rest =>
          if c =? lbrace then
            match rest with
            | [] =>
                Raises (Raised ValueError
                  (lit "Single '{' encountered in format string"))
            | c' :: rest' =>
                if c' =? lbrace
                then outcome_map (cons lbrace) (format_from kwargs None rest')
                else format_from kwargs (Some []) rest
            end
          else if c =? rbrace then
            match rest with
            | c' :: rest' =>
                if c' =? rbrace
                then outcome_map (cons rbrace) (format_from kwargs None rest')
                else Raises (Raised ValueError
                       (lit "Single '}' encountered in format string"))
            | [] =>
                Raises (Raised ValueError
                  (lit "Single '}' encountered in format string"))
            end
          else outcome_map (cons c) (format_from kwargs None rest)
      end
  | Some acc =>
      match t with
      | [] =>
          Raises (Raised ValueError
            (lit "expected '}' before end of string"))
      | c :: rest =>
          if c =? rbrace then
            match field_value kwargs (rev acc) with
            | Returns v =>
                outcome_map (app v) (format_from kwargs None rest)
            | Raises e => Raises e
            | Unmodelled => Unmodelled
            end
          else if c =? lbrace then
            Raises (Raised ValueError (lit "unexpected '{' in field name"))
          else if (c =? 33) || (c =? 58) || (c =? 46) || (c =? 91) then
            Unmodelled
          else format_from kwargs (Some (c :: acc)) rest
      end
  end.

Definition str_format (template : pystr) (kwargs : list (pystr * pystr))
  : outcome pystr :=
  format_from kwargs None template.

(** ** The format specification [.2f] on a float

    A finite float is [m * 2^e] exactly.  Its value is rounded to the
    nearest multiple of 1/100, ties to the even one, and printed with
    two digits after the point; the sign is printed also for a negative
    zero. *)

Definition round_half_even (num den : N) : N :=
  let q := num / den in
  let r := num mod den in
  if 2 * r <? den then q
  else if den <? 2 * r then q + 1
  else if N.even q then q else q + 1.

Definition hundredths (m : positive) (e : Z) : N :=
  match e with
  | Zneg p => round_half_even (N.pos m * 100) (2 ^ N.pos p)
  | Z0 => N.pos m * 100
  | Zpos p => N.pos m * 100 * 2 ^ N.pos p
  end.

Definition two_digits (n : N) : pystr :=
  [48 + n / 10; 48 + n mod 10].

Definition sign_prefix (negative : bool) : pystr :=
  if negative then lit "-" else [].

Definition format_2f (x : float) : pystr :=
  match Prim2SF x with
  | S754_nan => lit "nan"
  | S754_infinity s => sign_prefix s ++ lit "inf"
  | S754_zero s => sign_prefix s ++ lit "0.00"
  | S754_finite s m e =>
      let h := hundredths m e in
      sign_prefix s ++ str_of_N (h / 100) ++ lit "." ++ two_digits (h mod 100)
  end.

(** ** [create_medical_prompt_template] *)

(** The three code points of the bullet of guideline 6, as the source
    file spells it. *)
Definition bullet : pystr := [226; 8364; 162].

Definition create_medical_prompt_template : pystr :=
  lit "You are an expert medical assistant with access to comprehensive medical knowledge.

Based on the provided medical context, answer the user's question clearly and accurately.

GUIDELINES:
1) Provide clear, well-structured responses.
2) Use bullet points or numbered lists for complex information.
3) Explain medical terms in simple language.
4) Be specific and factual based on the context.
5) If the context doesn't contain relevant information, clearly state this.
6) Don't use + for bullet points and use " ++ bullet ++ lit " .

MEDICAL CONTEXT:
{context}

USER QUESTION: {question}

RESPONSE:".

(** ** The pipeline of [utils/retrieval_qa.py] *)

(** The client of the completion endpoint: [chat.completions.create] is
    a remote call, known only by what it answers to a request. *)
Record Groq : Type := {
  chat_completions_create : ChatRequest -> outcome ChatCompletion
}.

(** [enumerate(l, start)] *)
Fixpoint enumerate {A} (start : nat) (l : list A) : list (nat * A) :=
  match l with
  | [] => []
  | x :: rest => (start, x) :: enumerate (S start) rest
  end.

Definition no_context_found : pystr :=
  lit "No relevant medical information found in the knowledge base.".

Definition apology : pystr :=
  lit "I apologize, but I encountered an error while processing your medical question. Please try rephrasing your question or consult a healthcare professional directly.".

(** The keyword arguments [generate_medical_response] passes to the
    endpoint; [temperature] and [top_p] are the floats nearest to 0.2
    and to 0.9. *)
Definition completion_request (prompt : pystr) : ChatRequest := {|
  model := lit "llama-3.3-70b-versatile";
  messages := [ {| role := lit "user"; content := prompt |} ];
  temperature := 0x1.999999999999ap-3;
  max_tokens := 1200;
  top_p := 0x1.ccccccccccccdp-1;
  stream := false
|}.

Section Pipeline.

Variable lower_nonascii : codepoint -> pystr.

(** [similarity_search] is imported from [utils/vector_database.py],
    which is the vector store's accessor: a search answers a list of
    [(text, score, metadata)] or raises. *)
Variable Metadata : Type.
Definition ScoredResult : Type := (pystr * float * Metadata)%type.
Variable similarity_search : pystr -> Z -> outcome (list ScoredResult).

Definition call_similarity_search (query : pystr) (k : Z)
  : M (list ScoredResult) :=
  emit (SearchCall query k) ;; lift (similarity_search query k).

(** The f-string of one block. *)
Definition context_piece (i : nat) (r : ScoredResult) : pystr :=
  let '(text, score, _) := r in
  lit "[Source " ++ str_of_nat i ++ lit " - Relevance: " ++
  format_2f score ++ lit "]" ++ [nl] ++ strip text.

Definition divider : pystr := repeat 61 50.

Definition retrieve_relevant_context (query : pystr) (top_k : Z)
  : M pystr :=
  print (lit "Retrieving relevant context for: '" ++ firstn 50 query ++
         lit "...'") ;;
  results <- call_similarity_search query top_k ;;
  match results with
  | [] =>
      print (lit "No relevant context found") ;;
      ret no_context_found
  | _ :: _ =>
      let contexts :=
        fold_left
          (fun contexts '(i, r) => contexts ++ [context_piece i r])
          (enumerate 1 results) [] in
      let formatted_context :=
        [nl; nl] ++ divider ++ join [nl; nl] contexts in
      print (lit "Retrieved " ++ str_of_nat (length results) ++
             lit " relevant contexts") ;;
      ret formatted_context
  end.

Definition call_create (groq_client : Groq) (request : ChatRequest)
  : M ChatCompletion :=
  emit (CompletionCall request) ;;
  lift (chat_completions_create groq_client request).

(** [completion.choices[0]] *)
Definition first_choice (completion : ChatCompletion) : M Choice :=
  match choices completion with
  | [] => raise (Raised IndexError (lit "list index out of range"))
  | c :: _ => ret c
  end.

(** [format_medical_response] applied to what the message holds: a
    message without content holds [None], which has no [replace]. *)
Definition call_format_medical_response (response : option pystr)
  : M pystr :=
  match response with
  | Some r => ret (format_medical_response r)
  | None =>
      raise (Raised AttributeError
               (lit "'NoneType' object has no attribute 'replace'"))
  end.

(** The body of the [try] block. *)
Definition generate_steps (query : pystr) (groq_client : Groq) : M pystr :=
  context <- retrieve_relevant_context query 4 ;;
  let prompt_template := create_medical_prompt_template in
  prompt <- lift (str_format prompt_template
                    [(lit "context", context); (lit "question", query)]) ;;
  completion <- call_create groq_client (completion_request prompt) ;;
  choice <- first_choice completion ;;
  let response := message_content choice in
  formatted_response <- call_format_medical_response response ;;
  print (lit "Medical response generated successfully") ;;
  ret formatted_response.

Definition error_line (e : exn) : pystr :=
  lit "Error generating medical response: " ++ exn_message e.

Definition generate_medical_response (query : pystr) (groq_client : Groq)
  : M pystr :=
  print (lit "Generating response for query...") ;;
  try_except (generate_steps query groq_client)
    (fun e => print (error_line e) ;; ret apology).

(** ** The [/query] handler of [app.py] *)

(** The objects [app.py] holds.  [embeddings] and [vector_db] come
    from the vector store's module and are opaque here. *)
Inductive pyobj : Type :=
| PStr (s : pystr)
| PGroq (c : Groq)
| PEmbeddings
| PVectorStore.

(** A call of [generate_medical_response] with positional arguments:
    the interpreter binds them to the two parameters [query] and
    [groq_client] and raises [TypeError] when their number differs. *)
Definition call_generate_medical_response (args : list pyobj) : M pystr :=
  match args with
  | [] =>
      raise (Raised TypeError
        (lit "generate_medical_response() missing 2 required positional arguments: 'query' and 'groq_client'"))
  | [_] =>
      raise (Raised TypeError
        (lit "generate_medical_response() missing 1 required positional argument: 'groq_client'"))
  | [query; groq_client] =>
      match query, groq_client with
      | PStr q, PGroq c => generate_medical_response q c
      | _, _ => lift Unmodelled
      end
  | _ :: _ :: _ :: _ =>
      raise (Raised TypeError
        (lit "generate_medical_response() takes 2 positional arguments but " ++
         str_of_nat (length args) ++ lit " were given"))
  end.

(** The parsed body of the request, [request.get_json()]. *)
Inductive json : Type :=
| JNull
| JBool (b : bool)
| JInt (n : Z)
| JNumber (x : float)
| JString (s : pystr)
| JArray (items : list json)
| JObject (items : list (pystr * json)).

(** [type(value).__name__] *)
Definition type_name (value : json) : pystr :=
  match value with
  | JNull => lit "NoneType"
  | JBool _ => lit "bool"
  | JInt _ => lit "int"
  | JNumber _ => lit "float"
  | JString _ => lit "str"
  | JArray _ => lit "list"
  | JObject _ => lit "dict"
  end.

Definition no_attribute (value : json) (attribute : pystr) : exn :=
  Raised AttributeError
    (lit "'" ++ type_name value ++ lit "' object has no attribute '" ++
     attribute ++ lit "'").

(** [data.get(key, default)]: only a dict has [get]. *)
Fixpoint dict_lookup (items : list (pystr * json)) (key : pystr)
  : option json :=
  match items with
  | [] => None
  | (k, v) :: rest =>
      if list_eq_dec N.eq_dec k key then Some v else dict_lookup rest key
  end.

Definition json_get (data : json) (key : pystr) (default : json) : M json :=
  match data with
  | JObject items =>
      ret (match dict_lookup items key with
           | Some v => v
           | None => default
           end)
  | _ => raise (no_attribute data (lit "get"))
  end.

(** [value.strip()]: only a string has [strip]. *)
Definition json_strip (value : json) : M pystr :=
  match value with
  | JString s => ret (strip s)
  | _ => raise (no_attribute value (lit "strip"))
  end.

(** [jsonify(body), status] *)
Record Response : Type := {
  body : list (pystr * pystr);
  status : Z
}.

Definition is_empty (s : pystr) : bool :=
  match s with [] => true | _ :: _ => false end.

(** [now] is the reading of the clock, [datetime.now()], as printed. *)
Definition query (now : pystr) (client : Groq) (data : json) : M Response :=
  value <- json_get data (lit "question") (JString []) ;;
  question <- json_strip value ;;
  if is_empty question then
    ret {| body := [(lit "error", lit "No question provided")];
           status := 400 |}
  else if negb (validate_medical_query lower_nonascii question) then
    ret {| body := [(lit "error", lit "Inappropriate query")];
           status := 400 |}
  else
    try_except
      (answer <- call_generate_medical_response
                   [PGroq client; PEmbeddings; PVectorStore; PStr question] ;;
       ret {| body := [(lit "question", question); (lit "answer", answer)];
              status := 200 |})
      (fun e =>
         print (lit "[" ++ now ++ lit "] Error during response generation: " ++
                exn_message e) ;;
         ret {| body := [(lit "error", lit "Internal server error")];
                status := 500 |}).

End Pipeline.

(** * The start of [app.py]

    The lines of [app.py] above the routes run once, when the module is
    loaded: they read the key of the completion service, make the
    client, and load the vector store or build it from the PDF.  The
    environment, the file system and the functions of the modules
    [utils/pdf_processor.py] and [utils/vector_database.py] are known
    by what they answer; each call is an event of the start. *)

Inductive startup_event : Type :=
| LoadDotenv
| NewClient (api_key : pystr)
| MakeDirs (path : pystr)
| LoadStore (db_path meta_path : pystr)
| ProcessPdf (path : pystr)
| InitializeEmbeddings
| AddToStore
| SaveStore (db_path meta_path : pystr)
| StartupPrint (line : pystr).

Definition Startup (A : Type) : Type := (list startup_event * outcome A)%type.

Definition started {A} (a : A) : Startup A := ([], Returns a).
Definition stopped {A} (e : exn) : Startup A := ([], Raises e).
Definition call {A} (ev : startup_event) (answer : outcome A) : Startup A :=
  ([ev], answer).

Definition and_then {A B} (m : Startup A) (f : A -> Startup B) : Startup B :=
  match m with
  | (t, Returns a) => let (t', r) := f a in (t ++ t', r)
  | (t, Raises e) => (t, Raises e)
  | (t, Unmodelled) => (t, Unmodelled)
  end.

Notation "x <~ m ;; k" := (and_then m (fun x => k))
  (at level 61, m at next level, right associativity).

Definition RuntimeError (message : pystr) : exn :=
  Raised (OtherException (lit "RuntimeError")) message.

(** [os.path.join(a, b)] of two components, on a POSIX system. *)
Definition path_join (a b : pystr) : pystr :=
  if startswith b (lit "/") then b
  else if is_empty a || endswith a (lit "/") then a ++ b
  else a ++ lit "/" ++ b.

Section Start.

Variables Embeddings VectorStore Chunk : Type.

(** [os.getenv], once [load_dotenv] has run. *)
Variable getenv : pystr -> option pystr.
(** [Groq(api_key=...)] *)
Variable new_client : pystr -> outcome Groq.
(** [os.path.dirname(os.path.abspath(__file__))] *)
Variable BASE_DIR : pystr.
(** [os.makedirs(path, exist_ok=True)] and [os.path.exists(path)] *)
Variable makedirs : pystr -> outcome unit.
Variable path_exists : pystr -> bool.
(** The functions imported from the two modules. *)
Variable load_vector_database :
  pystr -> pystr -> outcome (Embeddings * VectorStore).
Variable process_pdf_complete : pystr -> outcome (list Chunk).
Variable initialize_embeddings : outcome Embeddings.
Variable add_to_vector_database :
  Embeddings -> list Chunk -> outcome VectorStore.
Variable save_vector_database : VectorStore -> pystr -> pystr -> outcome unit.
(** [get_database_stats(vector_db)['num_chunks']], as printed. *)
Variable num_chunks : VectorStore -> outcome pystr.
(** The readings of the clock for the first and the last line printed. *)
Variables now_first now_last : pystr.

Definition PDF_PATH : pystr := path_join BASE_DIR (lit "Medical_book.pdf").
Definition VECTOR_DB_DIR : pystr := path_join BASE_DIR (lit "data").
Definition VECTOR_DB_PATH : pystr :=
  path_join VECTOR_DB_DIR (lit "medical_vector_store.faiss").
Definition VECTOR_META_PATH : pystr :=
  path_join VECTOR_DB_DIR (lit "medical_vector_store.pkl").

(** What the module holds once it is loaded. *)
Record AppState : Type := {
  app_client : Groq;
  app_embeddings : Embeddings;
  app_vector_db : VectorStore
}.

Definition load_or_build (client : Groq) : Startup AppState :=
  if path_exists VECTOR_DB_PATH && path_exists VECTOR_META_PATH then
    loaded <~ call (LoadStore VECTOR_DB_PATH VECTOR_META_PATH)
                   (load_vector_database VECTOR_DB_PATH VECTOR_META_PATH) ;;
    let '(embeddings, vector_db) := loaded in
    n <~ ([], num_chunks vector_db) ;;
    _ <~ call (StartupPrint (lit "[" ++ now_first ++
                             lit "] Loaded vector DB with " ++ n ++
                             lit " chunks")) (Returns tt) ;;
    started {| app_client := client;
               app_embeddings := embeddings;
               app_vector_db := vector_db |}
  else
    _ <~ call (StartupPrint (lit "[" ++ now_first ++
                             lit "] Vector DB not found, processing PDF..."))
              (Returns tt) ;;
    chunks <~ call (ProcessPdf PDF_PATH) (process_pdf_complete PDF_PATH) ;;
    match chunks with
    | [] => stopped (RuntimeError (lit "Failed to process PDF at " ++ PDF_PATH))
    | _ :: _ =>
        embeddings <~ call InitializeEmbeddings initialize_embeddings ;;
        vector_db <~ call AddToStore
                          (add_to_vector_database embeddings chunks) ;;
        _ <~ call (SaveStore VECTOR_DB_PATH VECTOR_META_PATH)
                  (save_vector_database vector_db
                     VECTOR_DB_PATH VECTOR_META_PATH) ;;
        n <~ ([], num_chunks vector_db) ;;
        _ <~ call (StartupPrint (lit "[" ++ now_last ++
                                 lit "] Created new vector DB with " ++ n ++
                                 lit " chunks")) (Returns tt) ;;
        started {| app_client := client;
                   app_embeddings := embeddings;
                   app_vector_db := vector_db |}
    end.

Definition startup : Startup AppState :=
  _ <~ call LoadDotenv (Returns tt) ;;
  let GROQ_API_KEY := getenv (lit "GROQ_API_KEY") in
  match GROQ_API_KEY with
  | None | Some [] =>
      stopped (RuntimeError (lit "GROQ_API_KEY not set in environment"))
  | Some (c :: key) =>
      client <~ call (NewClient (c :: key)) (new_client (c :: key)) ;;
      _ <~ call (MakeDirs VECTOR_DB_DIR) (makedirs VECTOR_DB_DIR) ;;
      load_or_build client
  end.

End Start.

Arguments load_or_build {Embeddings VectorStore Chunk}.
Arguments startup {Embeddings VectorStore Chunk}.

(** * Definitions for the statements *)

(** ** Steps of [format_medical_response] *)

(** What the specification calls removing the emphasis markers: no
    star is left. *)
Definition remove_emphasis (s : pystr) : pystr :=
  filter (fun c => negb (c =? star)) s.

(** One pass over the text, from left to right, in which three
    newlines in a row become two and the scan goes on after them. *)
Fixpoint collapse_once (s : pystr) : pystr :=
  match s with
  | [] => []
  | a :: rest =>
      match rest with
      | b :: c :: rest' =>
          if (a =? nl) && (b =? nl) && (c =? nl)
          then nl :: nl :: collapse_once rest'
          else a :: collapse_once rest
      | _ => a :: collapse_once rest
      end
  end.

(** Runs of newlines. *)
Definition nl3 : pystr := [nl; nl; nl].
Definition nl4 : pystr := [nl; nl; nl; nl].

Definition head_is_nl (s : pystr) : bool :=
  match s with
  | [] => false
  | c :: _ => c =? nl
  end.

(** ** The prompt *)

(** The fixed parts of the template: before the context, between the
    context and the question, after the question. *)
Definition prompt_head : pystr := firstn 532 create_medical_prompt_template.
Definition prompt_middle : pystr := [nl; nl] ++ lit "USER QUESTION: ".
Definition prompt_tail : pystr := [nl; nl] ++ lit "RESPONSE:".

(** The two lines of [generate_medical_response] that fill the template:
    the prompt composer of the specification. *)
Definition compose (context question : pystr) : outcome pystr :=
  str_format create_medical_prompt_template
    [(lit "context", context); (lit "question", question)].

Definition prompt_of (context question : pystr) : pystr :=
  prompt_head ++ context ++ prompt_middle ++ question ++ prompt_tail.

(** ** Retrieval and generation *)

Arguments retrieve_relevant_context {Metadata} similarity_search query top_k.
Arguments context_piece {Metadata} i r.
Arguments generate_steps {Metadata} similarity_search query groq_client.
Arguments generate_medical_response {Metadata} similarity_search query groq_client.
Arguments call_generate_medical_response {Metadata} similarity_search args.
Arguments query lower_nonascii {Metadata} similarity_search now client data.

(** A string is a formatted block: the label with a rank and a score
    of two decimals, a newline, and a trimmed text. *)
Definition formatted_block (b : pystr) : Prop :=
  exists (rank : nat) (score : float) (text : pystr),
    (1 <= rank)%nat /\
    b = lit "[Source " ++ str_of_nat rank ++ lit " - Relevance: " ++
        format_2f score ++ lit "]" ++ [nl] ++ strip text.

Definition retrieving_line (query : pystr) : pystr :=
  lit "Retrieving relevant context for: '" ++ firstn 50 query ++ lit "...'".

Definition retrieved_line (n : nat) : pystr :=
  lit "Retrieved " ++ str_of_nat n ++ lit " relevant contexts".

(** What follows the answer of the endpoint. *)
Definition after_completion (answer : outcome ChatCompletion) : M pystr :=
  match answer with
  | Returns completion =>
      match choices completion with
      | [] => ([], Raises (Raised IndexError (lit "list index out of range")))
      | choice :: _ =>
          match message_content choice with
          | None =>
              ([], Raises (Raised AttributeError
                             (lit "'NoneType' object has no attribute 'replace'")))
          | Some response =>
              ([Print (lit "Medical response generated successfully")],
               Returns (format_medical_response response))
          end
      end
  | Raises e => ([], Raises e)
  | Unmodelled => ([], Unmodelled)
  end.

Definition arity_message : pystr :=
  lit "generate_medical_response() takes 2 positional arguments but 4 were given".

Section Statements.

Variable Metadata : Type.
Variable similarity_search : pystr -> Z -> outcome (list (ScoredResult Metadata)).

(** The blocks of a list of results, in order. *)
Definition blocks_of (results : list (ScoredResult Metadata)) : list pystr :=
  map (fun p => context_piece (fst p) (snd p)) (enumerate 1 results).

(** What [retrieve_relevant_context] returns once the search has
    answered [results]. *)
Definition context_of (results : list (ScoredResult Metadata)) : pystr :=
  match results with
  | [] => no_context_found
  | _ :: _ => [nl; nl] ++ divider ++ join [nl; nl] (blocks_of results)
  end.

Definition retrieval_trace (query : pystr) (top_k : Z)
           (results : list (ScoredResult Metadata)) : list event :=
  [Print (retrieving_line query); SearchCall query top_k;
   Print (match results with
          | [] => lit "No relevant context found"
          | _ :: _ => retrieved_line (length results)
          end)].

(** The ways a step of [generate_medical_response] fails with [e]: the
    search raises; filling the template raises; the endpoint raises (a
    network error, a timeout, an answer its client cannot read); the
    answer has no choice; the first choice has no content. *)
Inductive step_fails (query : pystr) (groq_client : Groq) (e : exn) : Prop :=
| retrieval_fails :
    similarity_search query 4 = Raises e ->
    step_fails query groq_client e
| prompt_filling_fails (context : pystr) :
    result_of (retrieve_relevant_context similarity_search query 4) =
      Returns context ->
    str_format create_medical_prompt_template
      [(lit "context", context); (lit "question", query)] = Raises e ->
    step_fails query groq_client e
| endpoint_fails (context prompt : pystr) :
    result_of (retrieve_relevant_context similarity_search query 4) =
      Returns context ->
    str_format create_medical_prompt_template
      [(lit "context", context); (lit "question", query)] = Returns prompt ->
    chat_completions_create groq_client (completion_request prompt) = Raises e ->
    step_fails query groq_client e
| answer_without_choice (context prompt : pystr) :
    result_of (retrieve_relevant_context similarity_search query 4) =
      Returns context ->
    str_format create_medical_prompt_template
      [(lit "context", context); (lit "question", query)] = Returns prompt ->
    chat_completions_create groq_client (completion_request prompt) =
      Returns {| choices := [] |} ->
    e = Raised IndexError (lit "list index out of range") ->
    step_fails query groq_client e
| answer_without_content (context prompt : pystr) (more : list Choice) :
    result_of (retrieve_relevant_context similarity_search query 4) =
      Returns context ->
    str_format create_medical_prompt_template
      [(lit "context", context); (lit "question", query)] = Returns prompt ->
    chat_completions_create groq_client (completion_request prompt) =
      Returns {| choices := {| message_content := None |} :: more |} ->
    e = Raised AttributeError
          (lit "'NoneType' object has no attribute 'replace'") ->
    step_fails query groq_client e.

End Statements.

Arguments blocks_of {Metadata} results.
Arguments context_of {Metadata} results.
Arguments retrieval_trace {Metadata} query top_k results.
Arguments step_fails {Metadata} similarity_search query groq_client e.

(** ** A store and two clients to run the pipeline on *)

(** Case mapping that leaves every code point outside ASCII as it is. *)
Definition ascii_only (c : codepoint) : pystr := [c].

Definition sample_chunks : list (ScoredResult unit) :=
  [(lit "  Fever is a rise of body temperature.  ", 0.875%float, tt);
   (lit "Use {braces} } with care", 0.5%float, tt)].

(** A store of two chunks: it answers the first [k] of them. *)
Definition sample_store (query : pystr) (k : Z)
  : outcome (list (ScoredResult unit)) :=
  Returns (firstn (Z.to_nat k) sample_chunks).

Definition empty_store (query : pystr) (k : Z)
  : outcome (list (ScoredResult unit)) :=
  Returns [].

Definition answering_client : Groq := {|
  chat_completions_create := fun _ =>
    Returns {| choices :=
      [ {| message_content := Some (lit "**Take rest** and drink water.") |} ] |}
|}.

Definition timeout_error : exn :=
  Raised (OtherException (lit "APITimeoutError")) (lit "Request timed out.").

Definition timeout_client : Groq := {|
  chat_completions_create := fun _ => Raises timeout_error
|}.

(** ** Further definitions for the statements *)

(** [s] is [t] with some code points left out: nothing added, nothing
    moved. *)
Inductive subseq : pystr -> pystr -> Prop :=
| subseq_nil : subseq [] []
| subseq_skip (c : codepoint) (s t : pystr) : subseq s t -> subseq s (c :: t)
| subseq_keep (c : codepoint) (s t : pystr) :
    subseq s t -> subseq (c :: s) (c :: t).

(** The code points [format_medical_response] never removes: all but
    the star and white space. *)
Definition kept (c : codepoint) : bool := negb (c =? star) && negb (isspace c).

Definition star_or_space (c : codepoint) : bool := (c =? star) || isspace c.

(** The calls of the search and of the endpoint in a trace, in order. *)
Definition search_calls (t : list event) : list (pystr * Z) :=
  flat_map (fun ev => match ev with
                      | SearchCall q k => [(q, k)]
                      | _ => []
                      end) t.

Definition completion_calls (t : list event) : list ChatRequest :=
  flat_map (fun ev => match ev with
                      | CompletionCall request => [request]
                      | _ => []
                      end) t.

(** [jsonify({"error": message}), code] *)
Definition error_response (message : pystr) (code : Z) : Response :=
  {| body := [(lit "error", message)]; status := code |}.

Definition keyboard_interrupt : exn :=
  Raised (BaseExceptionOnly (lit "KeyboardInterrupt")) [].

Definition interrupted_client : Groq := {|
  chat_completions_create := fun _ => Raises keyboard_interrupt
|}.

(** What [except Exception] of [generate_medical_response] makes of the
    way the steps ended: the line it prints and the result. *)
Definition handled_trace (r : outcome pystr) : list event :=
  match r with
  | Raises e => if is_Exception e then [Print (error_line e)] else []
  | _ => []
  end.

Definition handled_result (r : outcome pystr) : outcome pystr :=
  match r with
  | Raises e => if is_Exception e then Returns apology else Raises e
  | other => other
  end.

(** ** A machine to run the start on *)

(** An environment with the key, and one without. *)
Definition env_with_key (name : pystr) : option pystr :=
  if list_eq_dec N.eq_dec name (lit "GROQ_API_KEY")
  then Some (lit "gsk_sample") else None.

Definition env_without_key (name : pystr) : option pystr := None.

(** A file system that holds the index of the store and not its
    companion. *)
Definition index_file_only (path : pystr) : bool :=
  endswith path (lit ".faiss").

(** A PDF of one chunk and a PDF without text. *)
Definition pdf_of_one_chunk (path : pystr) : outcome (list pystr) :=
  Returns [lit "Fever is a rise of body temperature."].

Definition pdf_without_text (path : pystr) : outcome (list pystr) :=
  Returns [].

(** The start on the sample machine: the store is a list of chunks,
    its embeddings are not looked at. *)
Definition sample_start (getenv : pystr -> option pystr)
           (process_pdf_complete : pystr -> outcome (list pystr))
  : Startup (AppState unit (list pystr)) :=
  startup getenv (fun _ => Returns answering_client) (lit "/srv/app")
    (fun _ => Returns tt) index_file_only
    (fun _ _ => Returns (tt, []))
    process_pdf_complete (Returns tt)
    (fun _ chunks => Returns chunks)
    (fun _ _ _ => Returns tt)
    (fun store => Returns (str_of_nat (length store)))
    (lit "09:00:00") (lit "09:00:05").

(** ** What a block shows *)

(** The number a string of decimal digits stands for, read from the
    left; [None] when a code point is not a digit. *)
Fixpoint digits_value (acc : N) (s : pystr) : option N :=
  match s with
  | [] => Some acc
  | c :: rest =>
      if (48 <=? c) && (c <=? 57)
      then digits_value (10 * acc + (c - 48)) rest
      else None
  end.

(** [s] is the decimal numeral of [n]: digits only, at least one, and
    no zero in front but for the numeral of zero. *)
Definition numeral_of (n : N) (s : pystr) : Prop :=
  s <> [] /\ (hd 0 s = 48 -> s = [48]) /\ digits_value 0 s = Some n.

(** [h] hundredths is the multiple of 1/100 nearest to [m * 2^e], the
    even one of two that are as near. *)
Definition nearest_hundredth (m : positive) (e : Z) (h : N) : Prop :=
  match e with
  | Zneg p =>
      let d := 2 ^ N.pos p in
      2 * (N.pos m * 100) <= 2 * h * d + d /\
      2 * h * d <= 2 * (N.pos m * 100) + d /\
      (2 * (N.pos m * 100) = 2 * h * d + d -> N.even h = true) /\
      (2 * h * d = 2 * (N.pos m * 100) + d -> N.even h = true)
  | Z0 => h = N.pos m * 100
  | Zpos p => h = N.pos m * 100 * 2 ^ N.pos p
  end.

(** [s] shows the float [x] with two decimals: a minus sign when the
    sign bit is set, the numeral of the whole part, a point and two
    digits, for the nearest number of hundredths; [nan] and [inf] for
    what is no number. *)
Definition two_decimals_of (x : float) (s : pystr) : Prop :=
  match Prim2SF x with
  | S754_nan => s = lit "nan"
  | S754_infinity negative => s = if negative then lit "-inf" else lit "inf"
  | S754_zero negative => s = if negative then lit "-0.00" else lit "0.00"
  | S754_finite negative m e =>
      exists (whole : pystr) (d1 d2 h : N),
        s = (if negative then [45] else []) ++ whole ++ [46; d1; d2] /\
        (48 <= d1 <= 57) /\ (48 <= d2 <= 57) /\
        numeral_of (h / 100) whole /\
        h mod 100 = 10 * (d1 - 48) + (d2 - 48) /\
        nearest_hundredth m e h
  end.

(** [t] is [text] without the white space at its two ends. *)
Definition trimmed_of (text t : pystr) : Prop :=
  exists pre post,
    text = pre ++ t ++ post /\
    forallb isspace pre = true /\ forallb isspace post = true /\
    (t = [] \/ (isspace (hd 0 t) = false /\ isspace (last t 0) = false)).

(** [b] is the block of a result: the label with the rank and the
    score of two decimals, a newline, the trimmed text. *)
Definition block_of (rank : nat) (text : pystr) (score : float) (b : pystr)
  : Prop :=
  exists shown_rank shown_score trimmed,
    b = lit "[Source " ++ shown_rank ++ lit " - Relevance: " ++
        shown_score ++ lit "]" ++ [nl] ++ trimmed /\
    numeral_of (N.of_nat rank) shown_rank /\
    two_decimals_of score shown_score /\
    trimmed_of text trimmed.

(** Two ASCII code points are the same letter, case apart, or the same
    code point. *)
Definition same_letter (a b : codepoint) : Prop :=
  a = b \/ (65 <= a <= 90 /\ b = a + 32) \/ (65 <= b <= 90 /\ a = b + 32).

(** * Properties *)

(** ** Strings *)

Lemma startswith_nil (s : pystr) : startswith s [] = true.
Proof. destruct s; reflexivity. Qed.

Lemma startswith_spec (p s : pystr) :
  startswith s p = true <-> exists post, s = p ++ post.
Proof.
  revert s; induction p as [|a p IH]; intros s.
  - rewrite startswith_nil. split; [intros _; now exists s | reflexivity].
  - destruct s as [|b s]; simpl.
    + split; [discriminate | intros [post H]; discriminate].
    + rewrite andb_true_iff, N.eqb_eq, IH. split.
      * intros [-> [post ->]]. now exists post.
      * intros [post H]. injection H as -> ->. split; [reflexivity | now exists post].
Qed.

Lemma contains_spec (p s : pystr) :
  contains p s = true <-> exists pre post, s = pre ++ p ++ post.
Proof.
  induction s as [|c s IH].
  - cbn [contains]. rewrite orb_false_r, startswith_spec. split.
    + intros [post H]. now exists [], post.
    + intros [pre [post H]]. destruct pre; [now exists post | discriminate].
  - cbn [contains]. rewrite orb_true_iff, startswith_spec, IH. split.
    + intros [[post H] | [pre [post H]]].
      * now exists [], post.
      * exists (c :: pre), post. now rewrite H.
    + intros [pre [post H]]. destruct pre as [|c' pre].
      * left. now exists post.
      * right. injection H as _ H. now exists pre, post.
Qed.

Lemma contains_false_app (p pre post s : pystr) :
  contains p (pre ++ s ++ post) = false -> contains p s = false.
Proof.
  intros H. destruct (contains p s) eqn:E; [|reflexivity].
  apply contains_spec in E. destruct E as [a [b ->]].
  assert (contains p (pre ++ (a ++ p ++ b) ++ post) = true) as H'.
  { apply contains_spec. exists (pre ++ a), (b ++ post).
    now rewrite <- !app_assoc. }
  congruence.
Qed.

(** *** [replace] *)

Lemma replace_from_skip (o : codepoint) (old' new : pystr) (k : nat) (s : pystr) :
  replace_from (o :: old') new k s = replace_from (o :: old') new 0 (skipn k s).
Proof.
  revert s; induction k as [|k IH]; intros s; [reflexivity|].
  destruct s as [|c s]; [reflexivity|]. simpl skipn. rewrite <- IH. reflexivity.
Qed.

(** The equation of [replace] for a non-empty [old]. *)
Lemma replace_unfold (o : codepoint) (old' new s : pystr) :
  replace (o :: old') new s =
  match s with
  | [] => []
  | c :: rest =>
      if startswith s (o :: old')
      then new ++ replace (o :: old') new (skipn (length old') rest)
      else c :: replace (o :: old') new rest
  end.
Proof.
  unfold replace. destruct s as [|c rest]; [reflexivity|].
  cbn [replace_from]. now rewrite replace_from_skip.
Qed.

Lemma replace_single_star (s : pystr) :
  replace [star] [] s = remove_emphasis s.
Proof.
  induction s as [|c s IH]; [reflexivity|].
  rewrite replace_unfold. cbn [startswith length skipn app remove_emphasis filter].
  rewrite startswith_nil, andb_true_r, N.eqb_sym.
  fold (remove_emphasis s). rewrite IH.
  now destruct (c =? star).
Qed.

Lemma remove_emphasis_double_star (s : pystr) :
  remove_emphasis (replace [star; star] [] s) = remove_emphasis s.
Proof.
  remember (length s) as n eqn:Hn. revert s Hn.
  induction n as [n IH] using lt_wf_ind. intros s Hn.
  rewrite replace_unfold. destruct s as [|a [|b s]]; [reflexivity| |].
  - cbn [startswith]. rewrite andb_false_r. now rewrite replace_unfold.
  - cbn [startswith length skipn app]. rewrite startswith_nil, andb_true_r.
    destruct (N.eqb_spec star a) as [<-|Ha]; cbn [andb].
    + destruct (N.eqb_spec star b) as [<-|Hb].
      * cbn [remove_emphasis filter]. cbn [N.eqb star Pos.eqb negb].
        apply (IH (length s)); [subst n; simpl; lia | reflexivity].
      * cbn [remove_emphasis filter]. fold (remove_emphasis (b :: s)).
        fold (remove_emphasis (replace [star; star] [] (b :: s))).
        f_equal. f_equal.
        apply (IH (length (b :: s))); [subst n; simpl; lia | reflexivity].
    + cbn [remove_emphasis filter]. fold (remove_emphasis (b :: s)).
      fold (remove_emphasis (replace [star; star] [] (b :: s))).
      rewrite (IH (length (b :: s))) with (s := b :: s);
        [reflexivity | subst n; simpl; lia | reflexivity].
Qed.

Lemma replace_newlines (s : pystr) :
  replace [nl; nl; nl] [nl; nl] s = collapse_once s.
Proof.
  remember (length s) as n eqn:Hn. revert s Hn.
  induction n as [n IH] using lt_wf_ind. intros s Hn.
  rewrite replace_unfold. destruct s as [|a s]; [reflexivity|].
  assert (Hrest : replace [nl; nl; nl] [nl; nl] s = collapse_once s).
  { apply (IH (length s)); [subst n; simpl; lia | reflexivity]. }
  destruct s as [|b [|c s]].
  - cbn [startswith]. now rewrite andb_false_r.
  - cbn [startswith]. rewrite !andb_false_r. now rewrite Hrest.
  - cbn [startswith length skipn collapse_once]. rewrite startswith_nil, andb_true_r.
    rewrite (N.eqb_sym nl a), (N.eqb_sym nl b), (N.eqb_sym nl c), andb_assoc.
    destruct ((a =? nl) && (b =? nl) && (c =? nl)).
    + cbn [app]. do 2 f_equal.
      apply (IH (length s)); [subst n; simpl; lia | reflexivity].
    + f_equal. exact Hrest.
Qed.

(** *** [strip] *)

Lemma lstrip_head (s : pystr) (c : codepoint) (rest : pystr) :
  lstrip s = c :: rest -> isspace c = false.
Proof.
  induction s as [|a s IH]; simpl; [discriminate|].
  destruct (isspace a) eqn:E; [exact IH|]. intros H. injection H as <- _. exact E.
Qed.

Lemma lstrip_nonspace (c : codepoint) (rest : pystr) :
  isspace c = false -> lstrip (c :: rest) = c :: rest.
Proof. intros H. simpl. now rewrite H. Qed.

Lemma lstrip_decompose (s : pystr) : exists pre, s = pre ++ lstrip s.
Proof.
  induction s as [|a s [pre IH]]; [now exists []|]. simpl.
  destruct (isspace a); [|now exists []].
  exists (a :: pre). simpl. now rewrite <- IH.
Qed.

Lemma lstrip_app_nonspace (l : pystr) (c : codepoint) :
  isspace c = false -> lstrip (l ++ [c]) = lstrip l ++ [c].
Proof.
  intros H. induction l as [|a l IH]; simpl; [now rewrite H|].
  now destruct (isspace a).
Qed.

Lemma rstrip_nonspace (c : codepoint) (rest : pystr) :
  isspace c = false -> rstrip (c :: rest) = c :: rstrip rest.
Proof.
  intros H. unfold rstrip. simpl rev.
  rewrite lstrip_app_nonspace by exact H.
  now rewrite rev_app_distr.
Qed.

Lemma rstrip_decompose (s : pystr) : exists post, s = rstrip s ++ post.
Proof.
  unfold rstrip. destruct (lstrip_decompose (rev s)) as [pre H].
  exists (rev pre). rewrite <- rev_app_distr, <- H. now rewrite rev_involutive.
Qed.

Lemma rstrip_idem (s : pystr) : rstrip (rstrip s) = rstrip s.
Proof.
  unfold rstrip. rewrite rev_involutive. f_equal.
  destruct (lstrip (rev s)) as [|c rest] eqn:E; [reflexivity|].
  apply lstrip_nonspace. eapply lstrip_head; eassumption.
Qed.

Lemma strip_decompose (s : pystr) : exists pre post, s = pre ++ strip s ++ post.
Proof.
  destruct (lstrip_decompose s) as [pre H].
  destruct (rstrip_decompose (lstrip s)) as [post H'].
  exists pre, post. unfold strip. now rewrite <- H', <- H.
Qed.

Lemma strip_idem (s : pystr) : strip (strip s) = strip s.
Proof.
  unfold strip. destruct (lstrip s) as [|c rest] eqn:E; [reflexivity|].
  assert (Hc : isspace c = false) by (eapply lstrip_head; eassumption).
  rewrite (rstrip_nonspace c rest Hc), (lstrip_nonspace c _ Hc), (rstrip_nonspace c _ Hc).
  now rewrite rstrip_idem.
Qed.

Lemma strip_length (s : pystr) : (length (strip s) <= length s)%nat.
Proof.
  destruct (strip_decompose s) as [pre [post H]].
  rewrite H at 2. rewrite !length_app. lia.
Qed.

Lemma strip_In (s : pystr) (c : codepoint) : In c (strip s) -> In c s.
Proof.
  destruct (strip_decompose s) as [pre [post H]]. intros Hin.
  rewrite H. apply in_or_app. right. apply in_or_app. now left.
Qed.

Lemma strip_contains_false (p s : pystr) :
  contains p s = false -> contains p (strip s) = false.
Proof.
  destruct (strip_decompose s) as [pre [post H]]. intros Hc.
  rewrite H in Hc. eapply contains_false_app; eassumption.
Qed.

(** *** One pass of newline collapsing *)

Lemma collapse_once_hit (rest : pystr) :
  collapse_once (nl :: nl :: nl :: rest) = nl :: nl :: collapse_once rest.
Proof. reflexivity. Qed.

Lemma collapse_once_miss (a : codepoint) (rest : pystr) :
  startswith (a :: rest) nl3 = false ->
  collapse_once (a :: rest) = a :: collapse_once rest.
Proof.
  destruct rest as [|b [|c rest]]; [reflexivity | reflexivity |].
  cbn [startswith nl3 collapse_once]. rewrite startswith_nil, andb_true_r.
  rewrite (N.eqb_sym nl a), (N.eqb_sym nl b), (N.eqb_sym nl c), andb_assoc.
  now intros ->.
Qed.

Lemma startswith_nl3_true (s : pystr) :
  startswith s nl3 = true -> exists rest, s = nl :: nl :: nl :: rest.
Proof. intros H. apply startswith_spec in H. exact H. Qed.

(** Induction along the cases of [collapse_once]. *)
Lemma collapse_once_induction (P : pystr -> Prop) :
  P [] ->
  (forall rest, P rest -> P (nl :: nl :: nl :: rest)) ->
  (forall a rest, startswith (a :: rest) nl3 = false -> P rest -> P (a :: rest)) ->
  forall s, P s.
Proof.
  intros Hnil Hhit Hmiss s.
  remember (length s) as n eqn:Hn. revert s Hn.
  induction n as [n IH] using lt_wf_ind. intros [|a s] Hn; [exact Hnil|].
  destruct (startswith (a :: s) nl3) eqn:E.
  - destruct (startswith_nl3_true _ E) as [rest Hs]. rewrite Hs. apply Hhit.
    injection Hs as -> ->.
    apply (IH (length rest)); [subst n; simpl; lia | reflexivity].
  - apply Hmiss; [exact E|].
    apply (IH (length s)); [subst n; simpl; lia | reflexivity].
Qed.

Lemma collapse_once_In (s : pystr) (c : codepoint) :
  In c (collapse_once s) -> In c s.
Proof.
  induction s as [|rest IH|a rest Hmiss IH] using collapse_once_induction.
  - exact (fun H => H).
  - rewrite collapse_once_hit. simpl. intuition.
  - rewrite (collapse_once_miss _ _ Hmiss). simpl. intuition.
Qed.

Lemma collapse_once_length (s : pystr) :
  (length (collapse_once s) <= length s)%nat.
Proof.
  induction s as [|rest IH|a rest Hmiss IH] using collapse_once_induction.
  - simpl; lia.
  - rewrite collapse_once_hit. simpl. lia.
  - rewrite (collapse_once_miss _ _ Hmiss). simpl. lia.
Qed.

Lemma collapse_once_shrinks (s : pystr) :
  contains nl3 s = true -> (length (collapse_once s) < length s)%nat.
Proof.
  induction s as [|rest IH|a rest Hmiss IH] using collapse_once_induction.
  - discriminate.
  - intros _. rewrite collapse_once_hit. pose proof (collapse_once_length rest).
    simpl. lia.
  - rewrite (collapse_once_miss _ _ Hmiss). cbn [contains]. rewrite Hmiss.
    cbn [orb]. intros H. specialize (IH H). simpl. lia.
Qed.

Lemma collapse_once_fixed (s : pystr) :
  contains nl3 s = false -> collapse_once s = s.
Proof.
  induction s as [|rest IH|a rest Hmiss IH] using collapse_once_induction.
  - reflexivity.
  - cbn [contains].
    replace (startswith (nl :: nl :: nl :: rest) nl3) with true
      by (symmetry; apply startswith_spec; now exists rest).
    discriminate.
  - rewrite (collapse_once_miss _ _ Hmiss). cbn [contains]. rewrite Hmiss.
    cbn [orb]. intros H. now rewrite IH.
Qed.

Lemma remove_emphasis_fixed (s : pystr) :
  ~ In star s -> remove_emphasis s = s.
Proof.
  induction s as [|c s IH]; [reflexivity|]. intros H. cbn [remove_emphasis filter].
  destruct (N.eqb_spec c star) as [->|Hc].
  - exfalso. apply H. now left.
  - cbn [negb]. f_equal. apply IH. intros Hin. apply H. now right.
Qed.

Lemma remove_emphasis_no_star (s : pystr) : ~ In star (remove_emphasis s).
Proof.
  unfold remove_emphasis. rewrite filter_In. intros [_ H].
  now rewrite N.eqb_refl in H.
Qed.

Lemma startswith_one (s : pystr) : startswith s [nl] = head_is_nl s.
Proof.
  destruct s as [|c s]; [reflexivity|].
  cbn [startswith head_is_nl]. now rewrite startswith_nil, andb_true_r, N.eqb_sym.
Qed.

Lemma startswith_cons (a b : codepoint) (s p : pystr) :
  startswith (a :: s) (b :: p) = (b =? a) && startswith s p.
Proof. reflexivity. Qed.

Lemma collapse_once_head (s : pystr) :
  head_is_nl (collapse_once s) = head_is_nl s.
Proof.
  destruct s as [|a rest]; [reflexivity|].
  destruct (startswith (a :: rest) nl3) eqn:E.
  - destruct (startswith_nl3_true _ E) as [rest' ->]. reflexivity.
  - now rewrite (collapse_once_miss _ _ E).
Qed.

Lemma collapse_once_no_pair (s : pystr) :
  startswith s [nl; nl] = false ->
  startswith (collapse_once s) [nl; nl] = false.
Proof.
  destruct s as [|a rest]; [reflexivity|]. intros H.
  assert (E : startswith (a :: rest) nl3 = false).
  { destruct (startswith (a :: rest) nl3) eqn:E; [|reflexivity].
    destruct (startswith_nl3_true _ E) as [rest' Hs]. rewrite Hs in H.
    cbn in H. discriminate. }
  rewrite (collapse_once_miss _ _ E).
  rewrite startswith_cons in *.
  rewrite startswith_one in *. now rewrite collapse_once_head.
Qed.

Lemma contains_false_cons (p : pystr) (c : codepoint) (s : pystr) :
  contains p (c :: s) = false ->
  startswith (c :: s) p = false /\ contains p s = false.
Proof. cbn [contains]. intros H. now apply orb_false_iff in H. Qed.

(** Where the text has no four newlines in a row, one pass leaves no
    three in a row. *)
Lemma collapse_once_no_triple (s : pystr) :
  contains nl4 s = false -> contains nl3 (collapse_once s) = false.
Proof.
  induction s as [|rest IH|a rest Hmiss IH] using collapse_once_induction.
  - reflexivity.
  - intros H. apply contains_false_cons in H. destruct H as [Hhead H].
    apply contains_false_cons in H. destruct H as [_ H].
    apply contains_false_cons in H. destruct H as [_ H].
    specialize (IH H). rewrite collapse_once_hit.
    unfold nl4 in Hhead. rewrite !startswith_cons, startswith_one in Hhead.
    cbn [N.eqb nl Pos.eqb andb] in Hhead.
    rewrite <- collapse_once_head in Hhead.
    cbn [contains]. unfold nl3 at 1 2.
    rewrite !startswith_cons, startswith_one, Hhead.
    destruct (collapse_once rest) as [|c C'].
    + reflexivity.
    + cbn [head_is_nl] in Hhead. rewrite startswith_cons, (N.eqb_sym nl c), Hhead.
      rewrite !andb_false_r. exact IH.
  - intros H. apply contains_false_cons in H. destruct H as [_ H].
    specialize (IH H). rewrite (collapse_once_miss _ _ Hmiss).
    cbn [contains]. rewrite IH, orb_false_r.
    unfold nl3 in *. rewrite startswith_cons in *.
    destruct (nl =? a); [|reflexivity]. cbn [andb] in *.
    now apply collapse_once_no_pair.
Qed.

(** *** [format_medical_response], step by step *)

Lemma format_medical_response_steps (s : pystr) :
  format_medical_response s = strip (collapse_once (remove_emphasis s)).
Proof.
  unfold format_medical_response.
  change (lit "**") with [star; star]. change (lit "*") with [star].
  cbv zeta. change (strip []) with (@nil codepoint).
  unfold endswith. cbn [rev]. rewrite startswith_nil. cbn [negb].
  now rewrite replace_single_star, remove_emphasis_double_star, replace_newlines.
Qed.

Lemma format_medical_response_no_star (s : pystr) :
  ~ In star (format_medical_response s).
Proof.
  rewrite format_medical_response_steps. intros H.
  apply strip_In, collapse_once_In in H.
  exact (remove_emphasis_no_star _ H).
Qed.

Lemma format_medical_response_clean (s : pystr) :
  ~ In star s -> contains nl3 s = false -> strip s = s ->
  format_medical_response s = s.
Proof.
  intros Hstar Hnl Hstrip. rewrite format_medical_response_steps.
  now rewrite remove_emphasis_fixed, collapse_once_fixed.
Qed.

Lemma format_medical_response_twice (s : pystr) :
  format_medical_response (format_medical_response s) =
  strip (collapse_once (format_medical_response s)).
Proof.
  rewrite (format_medical_response_steps (format_medical_response s)).
  rewrite remove_emphasis_fixed; [reflexivity|].
  apply format_medical_response_no_star.
Qed.

(** ** The claims about [format_medical_response] *)





(** ** The claim about [validate_medical_query] *)

Lemma lower_codepoint_ascii (lower_nonascii : codepoint -> pystr)
      (c : codepoint) :
  c < 128 ->
  exists c',
    lower_codepoint lower_nonascii c = [c'] /\
    same_letter c c' /\ ~ (65 <= c' <= 90) /\ c' < 128.
Proof.
  intros Hc. unfold lower_codepoint.
  destruct (N.ltb_spec c 128) as [_ | H]; [|lia].
  destruct (N.leb_spec 65 c) as [H1 | H1];
    destruct (N.leb_spec c 90) as [H2 | H2]; cbn [andb];
    eexists; (split; [reflexivity|]); unfold same_letter; lia.
Qed.

(** On ASCII text [lower] changes the capital letters to the small
    ones and nothing else. *)
Lemma lower_ascii (lower_nonascii : codepoint -> pystr) (query : pystr) :
  (forall c, In c query -> c < 128) ->
  Forall2 same_letter query (lower lower_nonascii query) /\
  (forall c, In c (lower lower_nonascii query) -> ~ (65 <= c <= 90)).
Proof.
  induction query as [|a query IH]; intros Hascii.
  - split; [constructor | intros c []].
  - destruct (lower_codepoint_ascii lower_nonascii a) as [a' (Ha & Hs & Hn & _)];
      [apply Hascii; now left|].
    destruct IH as [IH1 IH2]; [intros c Hc; apply Hascii; now right|].
    unfold lower in *. cbn [flat_map]. rewrite Ha. cbn [app]. split.
    + now constructor.
    + intros c [<- | Hc]; [exact Hn | now apply IH2].
Qed.

Lemma lower_same_letter (lower_nonascii : codepoint -> pystr)
      (query query' : pystr) :
  (forall c, In c query -> c < 128) ->
  (forall c, In c query' -> c < 128) ->
  Forall2 same_letter query query' ->
  lower lower_nonascii query = lower lower_nonascii query'.
Proof.
  intros H1 H2 Hsame. induction Hsame as [|a b q q' Hab Hrest IH];
    [reflexivity|].
  unfold lower in *. cbn [flat_map]. rewrite IH.
  - f_equal.
    assert (Ha : a < 128) by (apply H1; now left).
    assert (Hb : b < 128) by (apply H2; now left).
    unfold lower_codepoint.
    destruct (N.ltb_spec a 128) as [_ | H]; [|lia].
    destruct (N.ltb_spec b 128) as [_ | H]; [|lia].
    f_equal. unfold same_letter in Hab.
    destruct (N.leb_spec 65 a); destruct (N.leb_spec a 90);
      destruct (N.leb_spec 65 b); destruct (N.leb_spec b 90);
      cbn [andb]; lia.
  - intros c Hc. apply H1. now right.
  - intros c Hc. apply H2. now right.
Qed.

(** C6.  [validate_medical_query] is a total function to [bool] (it has
    no effect and raises nothing), and it answers [true] exactly when
    the lower-cased query has one of the listed terms as a substring.
    Lower-casing turns the capital letters of ASCII text into the small
    ones and leaves the rest, so the answer does not depend on the case
    of the letters.  It accepts [What causes fever?], also in capitals,
    and rejects [What's the weather?]. *)
Theorem validate_medical_query_iff (lower_nonascii : codepoint -> pystr) :
  (forall query,
     validate_medical_query lower_nonascii query = true <->
     exists indicator pre post,
       In indicator medical_indicators /\
       lower lower_nonascii query = pre ++ indicator ++ post) /\
  validate_medical_query lower_nonascii (lit "What causes fever?") = true /\
  validate_medical_query lower_nonascii (lit "What's the weather?") = false /\
  (forall query,
     (forall c, In c query -> c < 128) ->
     Forall2 same_letter query (lower lower_nonascii query) /\
     (forall c, In c (lower lower_nonascii query) -> ~ (65 <= c <= 90))) /\
  (forall query query',
     (forall c, In c query -> c < 128) ->
     (forall c, In c query' -> c < 128) ->
     Forall2 same_letter query query' ->
     validate_medical_query lower_nonascii query =
     validate_medical_query lower_nonascii query') /\
  lower lower_nonascii (lit "What Causes FEVER?") = lit "what causes fever?" /\
  validate_medical_query lower_nonascii (lit "WHAT CAUSES FEVER?") = true /\
  validate_medical_query lower_nonascii (lit "HEART Of The Matter") = true.
Proof.
  split; [|split; [reflexivity|split; [reflexivity|]]].
  - intros query. unfold validate_medical_query. cbv zeta.
    rewrite existsb_exists. split.
    + intros [indicator [Hin Hc]]. apply contains_spec in Hc.
      destruct Hc as [pre [post Hc]]. now exists indicator, pre, post.
    + intros [indicator [pre [post [Hin Hc]]]]. exists indicator.
      split; [exact Hin|]. apply contains_spec. now exists pre, post.
  - split; [apply lower_ascii|]. split; [|repeat split; reflexivity].
    intros query query' H1 H2 Hsame. unfold validate_medical_query.
    cbv zeta. now rewrite (lower_same_letter lower_nonascii _ _ H1 H2 Hsame).
Qed.

(** ** The claim about the prompt *)

Lemma compose_returns (context question : pystr) :
  compose context question =
  Returns (prompt_head ++ context ++ prompt_middle ++ question ++ prompt_tail).
Proof. vm_compute. reflexivity. Qed.

(** C2.  For every context and every question, filling the template
    succeeds and the prompt holds the whole context and the whole
    question, each as it is, between the fixed parts of the template. *)
Theorem prompt_contains_context_and_question (context question : pystr) :
  exists prompt,
    str_format create_medical_prompt_template
      [(lit "context", context); (lit "question", question)] = Returns prompt /\
    prompt = prompt_head ++ context ++ prompt_middle ++ question ++ prompt_tail /\
    contains context prompt = true /\
    contains question prompt = true.
Proof.
  exists (prompt_head ++ context ++ prompt_middle ++ question ++ prompt_tail).
  split; [apply compose_returns|]. split; [reflexivity|]. split.
  - apply contains_spec.
    now exists prompt_head, (prompt_middle ++ question ++ prompt_tail).
  - apply contains_spec.
    exists (prompt_head ++ context ++ prompt_middle), prompt_tail.
    now rewrite <- !app_assoc.
Qed.

(** ** The claims about retrieval and generation *)

Ltac run :=
  cbn [bind ret raise lift print emit try_except call_create first_choice
       call_format_medical_response call_similarity_search
       app fst snd result_of trace_of].

Lemma enumerate_length {A} (start : nat) (l : list A) :
  length (enumerate start l) = length l.
Proof. revert start; induction l; intros; simpl; [reflexivity | now rewrite IHl]. Qed.

Lemma enumerate_nth_error {A} (l : list A) (start i : nat) :
  nth_error (enumerate start l) i =
  option_map (fun x => ((start + i)%nat, x)) (nth_error l i).
Proof.
  revert start i; induction l as [|x l IH]; intros start [|i]; simpl;
    try reflexivity.
  - now rewrite Nat.add_0_r.
  - rewrite IH. now rewrite Nat.add_succ_r.
Qed.

Lemma join_contains (sep block : pystr) (blocks : list pystr) :
  In block blocks -> contains block (join sep blocks) = true.
Proof.
  induction blocks as [|b rest IH]; [contradiction|].
  intros [-> | Hin]; apply contains_spec.
  - destruct rest as [|b' rest].
    + exists [], []. cbn [join app]. now rewrite app_nil_r.
    + exists [], (sep ++ join sep (b' :: rest)). reflexivity.
  - destruct rest as [|b' rest]; [contradiction|].
    apply IH, contains_spec in Hin. destruct Hin as [pre [post Hj]].
    exists (b ++ sep ++ pre), post.
    change (join sep (b :: b' :: rest)) with (b ++ sep ++ join sep (b' :: rest)).
    rewrite Hj. now rewrite <- !app_assoc.
Qed.

Lemma contains_trans (a b c : pystr) :
  contains a b = true -> contains b c = true -> contains a c = true.
Proof.
  rewrite !contains_spec. intros [p1 [q1 ->]] [p2 [q2 ->]].
  exists (p2 ++ p1), (q1 ++ q2). now rewrite <- !app_assoc.
Qed.

(** ** Numerals, two decimals and trimming, as the blocks show them *)

Ltac digit_step c :=
  match goal with
  | |- context [lit (NilEmpty.string_of_uint (?D ?d))] =>
      change (lit (NilEmpty.string_of_uint (D d)))
        with (c :: lit (NilEmpty.string_of_uint d))
  end;
  cbn [digits_value]; change ((48 <=? c) && (c <=? 57)) with true; cbv iota.

Lemma digits_value_acc (d : Decimal.uint) (acc : positive) :
  digits_value (N.pos acc) (lit (NilEmpty.string_of_uint d)) =
  Some (N.pos (Pos.of_uint_acc d acc)).
Proof.
  revert acc. induction d as [|d IH|d IH|d IH|d IH|d IH|d IH|d IH|d IH|d IH|d IH];
    intros acc; [reflexivity | ..]; cbn [Pos.of_uint_acc]; rewrite <- IH.
  - digit_step 48; f_equal; lia.
  - digit_step 49; f_equal; lia.
  - digit_step 50; f_equal; lia.
  - digit_step 51; f_equal; lia.
  - digit_step 52; f_equal; lia.
  - digit_step 53; f_equal; lia.
  - digit_step 54; f_equal; lia.
  - digit_step 55; f_equal; lia.
  - digit_step 56; f_equal; lia.
  - digit_step 57; f_equal; lia.
Qed.

Lemma digits_value_uint (d : Decimal.uint) :
  Pos.of_uint d <> 0 ->
  digits_value 0 (lit (NilEmpty.string_of_uint d)) = Some (Pos.of_uint d).
Proof.
  induction d as [|d IH|d IH|d IH|d IH|d IH|d IH|d IH|d IH|d IH|d IH];
    intros Hnz; cbn [Pos.of_uint] in *.
  - now destruct Hnz.
  - digit_step 48. exact (IH Hnz).
  - digit_step 49. apply (digits_value_acc d 1).
  - digit_step 50. apply (digits_value_acc d 2).
  - digit_step 51. apply (digits_value_acc d 3).
  - digit_step 52. apply (digits_value_acc d 4).
  - digit_step 53. apply (digits_value_acc d 5).
  - digit_step 54. apply (digits_value_acc d 6).
  - digit_step 55. apply (digits_value_acc d 7).
  - digit_step 56. apply (digits_value_acc d 8).
  - digit_step 57. apply (digits_value_acc d 9).
Qed.

Lemma to_uint_normal (n : N) : Decimal.unorm (N.to_uint n) = N.to_uint n.
Proof.
  rewrite <- (DecimalN.Unsigned.to_of (N.to_uint n)).
  now rewrite DecimalN.Unsigned.of_to.
Qed.

Lemma to_uint_no_zero_in_front (p : positive) (d : Decimal.uint) :
  N.to_uint (N.pos p) <> Decimal.D0 d.
Proof.
  intros H. pose proof (to_uint_normal (N.pos p)) as Hn.
  pose proof (DecimalN.Unsigned.of_to (N.pos p)) as Hof.
  rewrite H in Hn, Hof. rewrite DecimalFacts.unorm_D0 in Hn.
  unfold Decimal.unorm in Hn.
  destruct (Decimal.nzhead d) eqn:E;
    try (exact (DecimalFacts.nzhead_nonzero d d (eq_trans E Hn))).
  injection Hn as <-. discriminate Hof.
Qed.

(** [str_of_N] prints the decimal numeral of its argument. *)
Lemma str_of_N_numeral (n : N) : numeral_of n (str_of_N n).
Proof.
  destruct n as [|p]; [repeat split; discriminate|].
  unfold str_of_N, numeral_of.
  pose proof (DecimalN.Unsigned.of_to (N.pos p)) as Hof.
  pose proof (to_uint_no_zero_in_front p) as Hz.
  destruct (N.to_uint (N.pos p)) as [|d|d|d|d|d|d|d|d|d|d] eqn:E;
    try discriminate Hof;
    try (now destruct (Hz d));
    (split; [discriminate|]; split; [discriminate|]);
    cbn [NilZero.string_of_uint]; rewrite digits_value_uint;
    try (now rewrite <- Hof); unfold N.of_uint in Hof; rewrite Hof; discriminate.
Qed.

Lemma str_of_nat_numeral (n : nat) : numeral_of (N.of_nat n) (str_of_nat n).
Proof. apply str_of_N_numeral. Qed.

Lemma round_half_even_nearest (num d : N) :
  d <> 0 ->
  let h := round_half_even num d in
  2 * num <= 2 * h * d + d /\
  2 * h * d <= 2 * num + d /\
  (2 * num = 2 * h * d + d -> N.even h = true) /\
  (2 * h * d = 2 * num + d -> N.even h = true).
Proof.
  intros Hd. unfold round_half_even.
  pose proof (N.div_mod num d Hd) as Hdm.
  pose proof (N.mod_lt num d Hd) as Hlt.
  set (q := num / d) in *. set (r := num mod d) in *. cbv zeta.
  destruct (N.ltb_spec (2 * r) d) as [H1 | H1].
  - repeat split; try nia.
  - destruct (N.ltb_spec d (2 * r)) as [H2 | H2].
    + repeat split; try nia.
    + assert (Hr : 2 * r = d) by lia.
      destruct (N.even q) eqn:Ee.
      * repeat split; try nia; intros _; exact Ee.
      * assert (Ho : N.even (q + 1) = true).
        { rewrite N.add_1_r, N.even_succ, <- N.negb_even. now rewrite Ee. }
        repeat split; try nia; intros _; exact Ho.
Qed.

Lemma hundredths_nearest (m : positive) (e : Z) :
  nearest_hundredth m e (hundredths m e).
Proof.
  destruct e as [|p|p]; [reflexivity | reflexivity |].
  unfold nearest_hundredth, hundredths.
  apply round_half_even_nearest. apply N.pow_nonzero. discriminate.
Qed.

(** [format_2f] shows its argument with two decimals. *)
Lemma format_2f_two_decimals (x : float) : two_decimals_of x (format_2f x).
Proof.
  unfold two_decimals_of, format_2f.
  destruct (Prim2SF x) as [negative|negative| |negative m e].
  - now destruct negative.
  - now destruct negative.
  - reflexivity.
  - cbv zeta. set (h := hundredths m e).
    pose proof (N.mod_lt h 100 ltac:(discriminate)) as Hlt.
    remember (h mod 100) as r eqn:Hr.
    pose proof (N.div_mod r 10 ltac:(discriminate)) as Hdm.
    pose proof (N.mod_lt r 10 ltac:(discriminate)) as Hlt'.
    remember (r / 10) as q eqn:Hq. remember (r mod 10) as t eqn:Ht.
    exists (str_of_N (h / 100)), (48 + q), (48 + t), h.
    split; [now destruct negative; subst; reflexivity|].
    split; [lia|]. split; [lia|].
    split; [apply str_of_N_numeral|].
    split; [rewrite <- Hr; lia|].
    apply hundredths_nearest.
Qed.

Lemma lstrip_spaces (s : pystr) :
  exists pre, s = pre ++ lstrip s /\ forallb isspace pre = true.
Proof.
  induction s as [|c s [pre [H Hs]]]; [now exists []|]. cbn [lstrip].
  destruct (isspace c) eqn:E; [|now exists []].
  exists (c :: pre). cbn [app forallb]. rewrite E, Hs. now rewrite <- H.
Qed.

Lemma forallb_rev (f : codepoint -> bool) (s : pystr) :
  forallb f s = true -> forallb f (rev s) = true.
Proof.
  rewrite !forallb_forall. intros H c Hin. apply H. now apply in_rev.
Qed.

Lemma rstrip_spaces (s : pystr) :
  exists post, s = rstrip s ++ post /\ forallb isspace post = true.
Proof.
  unfold rstrip. destruct (lstrip_spaces (rev s)) as [pre [H Hs]].
  exists (rev pre). split; [|now apply forallb_rev].
  rewrite <- rev_app_distr, <- H. now rewrite rev_involutive.
Qed.

Lemma lstrip_length (s : pystr) : (length (lstrip s) <= length s)%nat.
Proof.
  destruct (lstrip_decompose s) as [pre H]. rewrite H at 2.
  rewrite length_app. lia.
Qed.

Lemma rstrip_length (s : pystr) : (length (rstrip s) <= length s)%nat.
Proof.
  destruct (rstrip_decompose s) as [post H]. rewrite H at 2.
  rewrite length_app. lia.
Qed.

(** [strip] gives the text without the white space at its ends. *)
Lemma strip_trimmed (text : pystr) : trimmed_of text (strip text).
Proof.
  destruct (lstrip_spaces text) as [pre [Hpre Hspre]].
  destruct (rstrip_spaces (lstrip text)) as [post [Hpost Hspost]].
  exists pre, post. split; [|split; [exact Hspre|split; [exact Hspost|]]].
  - unfold strip. now rewrite <- Hpost.
  - destruct (strip text) as [|c t] eqn:E; [now left | right]. split.
    + cbn [hd]. destruct (isspace c) eqn:Ec; [exfalso | reflexivity].
      pose proof (strip_idem text) as Hi. rewrite E in Hi.
      unfold strip in Hi. cbn [lstrip] in Hi. rewrite Ec in Hi.
      pose proof (rstrip_length (lstrip t)) as H1.
      pose proof (lstrip_length t) as H2.
      rewrite Hi in H1. cbn [length] in H1. lia.
    + unfold strip, rstrip in E.
      destruct (lstrip (rev (lstrip text))) as [|c' w] eqn:Ew;
        [discriminate E|].
      assert (Hc' : isspace c' = false) by (eapply lstrip_head; exact Ew).
      cbn [rev] in E. rewrite <- E. now rewrite last_last.
Qed.

Lemma join_concat (sep first : pystr) (rest : list pystr) :
  join sep (first :: rest) = first ++ concat (map (fun b => sep ++ b) rest).
Proof.
  revert first. induction rest as [|b rest IH]; intros first.
  - cbn [join map concat]. now rewrite app_nil_r.
  - change (join sep (first :: b :: rest))
      with (first ++ sep ++ join sep (b :: rest)).
    rewrite IH. cbn [map concat]. now rewrite <- !app_assoc.
Qed.

Section PipelineProperties.

Variable lower_nonascii : codepoint -> pystr.
Variable Metadata : Type.
Variable similarity_search : pystr -> Z -> outcome (list (ScoredResult Metadata)).

Lemma contexts_loop (l : list (nat * ScoredResult Metadata)) (acc : list pystr) :
  fold_left (fun contexts '(i, r) => contexts ++ [context_piece i r]) l acc =
  acc ++ map (fun p => context_piece (fst p) (snd p)) l.
Proof.
  revert acc; induction l as [|[i r] l IH]; intros acc; simpl.
  - now rewrite app_nil_r.
  - rewrite IH, <- app_assoc. reflexivity.
Qed.

Lemma retrieve_some (query : pystr) (top_k : Z)
      (r : ScoredResult Metadata) (rest : list (ScoredResult Metadata)) :
  similarity_search query top_k = Returns (r :: rest) ->
  retrieve_relevant_context similarity_search query top_k =
  ([Print (retrieving_line query); SearchCall query top_k;
    Print (retrieved_line (length (r :: rest)))],
   Returns ([nl; nl] ++ divider ++ join [nl; nl] (blocks_of (r :: rest)))).
Proof.
  intros H. unfold retrieve_relevant_context. run. rewrite H. run.
  rewrite contexts_loop. reflexivity.
Qed.

Lemma retrieve_none (query : pystr) (top_k : Z) :
  similarity_search query top_k = Returns [] ->
  retrieve_relevant_context similarity_search query top_k =
  ([Print (retrieving_line query); SearchCall query top_k;
    Print (lit "No relevant context found")],
   Returns no_context_found).
Proof.
  intros H. unfold retrieve_relevant_context. run. rewrite H. reflexivity.
Qed.

Lemma retrieve_raises (query : pystr) (top_k : Z) (e : exn) :
  similarity_search query top_k = Raises e ->
  retrieve_relevant_context similarity_search query top_k =
  ([Print (retrieving_line query); SearchCall query top_k], Raises e).
Proof.
  intros H. unfold retrieve_relevant_context. run. rewrite H. reflexivity.
Qed.

Lemma blocks_of_length (results : list (ScoredResult Metadata)) :
  length (blocks_of results) = length results.
Proof. unfold blocks_of. now rewrite length_map, enumerate_length. Qed.

Lemma blocks_of_nth (results : list (ScoredResult Metadata)) (i : nat)
      (text : pystr) (score : float) (metadata : Metadata) :
  nth_error results i = Some (text, score, metadata) ->
  nth_error (blocks_of results) i =
  Some (lit "[Source " ++ str_of_nat (i + 1) ++ lit " - Relevance: " ++
        format_2f score ++ lit "]" ++ [nl] ++ strip text).
Proof.
  intros H. unfold blocks_of. rewrite nth_error_map, enumerate_nth_error, H.
  cbn [option_map fst snd context_piece]. now rewrite Nat.add_comm.
Qed.

Lemma blocks_of_nth_all (results : list (ScoredResult Metadata)) (i : nat) :
  nth_error (blocks_of results) i =
  option_map (context_piece (i + 1)) (nth_error results i).
Proof.
  unfold blocks_of. rewrite nth_error_map, enumerate_nth_error.
  destruct (nth_error results i); [|reflexivity].
  cbn [option_map fst snd]. now rewrite Nat.add_comm.
Qed.

Lemma blocks_of_formatted (results : list (ScoredResult Metadata)) :
  Forall formatted_block (blocks_of results).
Proof.
  apply Forall_forall. intros b Hin.
  apply In_nth_error in Hin. destruct Hin as [i Hi].
  destruct (nth_error results i) as [[[text score] metadata]|] eqn:E.
  - rewrite (blocks_of_nth _ _ _ _ _ E) in Hi. injection Hi as <-.
    exists (i + 1)%nat, score, text. split; [lia | reflexivity].
  - apply nth_error_None in E. rewrite <- blocks_of_length in E.
    apply nth_error_None in E. congruence.
Qed.

(** C5.  When the search answers a non-empty list, the context is two
    newlines and the divider of fifty [=], followed by the first block
    and then, for each further block, two newlines and the block: one
    block per result, in order.  The block of the result at position
    [i] (from 0) is the label with the decimal numeral of [i + 1] as
    rank and the score shown with two decimals (the nearest hundredth,
    a point and two digits), a newline, and the text of the chunk
    without the white space at its ends. *)
Theorem retrieve_relevant_context_blocks
        (query : pystr) (top_k : Z) (results : list (ScoredResult Metadata)) :
  similarity_search query top_k = Returns results ->
  results <> [] ->
  exists first rest,
    result_of (retrieve_relevant_context similarity_search query top_k) =
      Returns ([nl; nl] ++ repeat 61 50 ++ first ++
               concat (map (fun block => [nl; nl] ++ block) rest)) /\
    length (first :: rest) = length results /\
    forall i text score metadata,
      nth_error results i = Some (text, score, metadata) ->
      exists shown_rank shown_score trimmed,
        nth_error (first :: rest) i =
          Some (lit "[Source " ++ shown_rank ++ lit " - Relevance: " ++
                shown_score ++ lit "]" ++ [nl] ++ trimmed) /\
        shown_rank = str_of_nat (i + 1) /\
        numeral_of (N.of_nat (i + 1)) shown_rank /\
        shown_score = format_2f score /\
        two_decimals_of score shown_score /\
        trimmed = strip text /\
        trimmed_of text trimmed.
Proof.
  intros Hsearch Hne. destruct results as [|r others]; [contradiction|].
  pose proof (blocks_of_length (r :: others)) as Hlen.
  pose proof (blocks_of_nth (r :: others)) as Hnth.
  rewrite (retrieve_some _ _ _ _ Hsearch).
  destruct (blocks_of (r :: others)) as [|first rest];
    [discriminate Hlen|].
  exists first, rest. split; [|split; [exact Hlen|]].
  - cbn [result_of snd]. unfold divider. now rewrite join_concat.
  - intros i text score metadata Hi.
    exists (str_of_nat (i + 1)), (format_2f score), (strip text).
    split; [exact (Hnth _ _ _ _ Hi)|].
    split; [reflexivity|]. split; [apply str_of_nat_numeral|].
    split; [reflexivity|]. split; [apply format_2f_two_decimals|].
    split; [reflexivity | apply strip_trimmed].
Qed.

(** C7.  When the search answers no result, the context is the fixed
    sentence, which is not the empty string, and nothing is raised. *)
Theorem retrieve_relevant_context_no_results (query : pystr) (top_k : Z) :
  similarity_search query top_k = Returns [] ->
  result_of (retrieve_relevant_context similarity_search query top_k) =
    Returns (lit "No relevant medical information found in the knowledge base.") /\
  lit "No relevant medical information found in the knowledge base." <> [] /\
  trace_of (retrieve_relevant_context similarity_search query top_k) =
    [Print (retrieving_line query); SearchCall query top_k;
     Print (lit "No relevant context found")].
Proof.
  intros H. rewrite (retrieve_none _ _ H). repeat split. discriminate.
Qed.

(** C8.  When the search, asked for [top_k] results, answers fewer, the
    context holds one block for each result that exists, in order, and
    no other: fewer blocks than [top_k].  Each is the block of its
    result: the label with the numeral of its rank and the score with
    two decimals, a newline, the trimmed text.  Nothing is raised: with
    no result the context is the fixed sentence (no block), otherwise
    the divider, the first block and, for each further block, two
    newlines and the block. *)
Theorem retrieve_relevant_context_fewer_than_top_k
        (query : pystr) (top_k : Z) (results : list (ScoredResult Metadata)) :
  similarity_search query top_k = Returns results ->
  (Z.of_nat (length results) < top_k)%Z ->
  exists blocks,
    length blocks = length results /\
    (Z.of_nat (length blocks) < top_k)%Z /\
    Forall formatted_block blocks /\
    (forall i, nth_error blocks i =
               option_map (context_piece (i + 1)) (nth_error results i)) /\
    (forall i text score metadata,
       nth_error results i = Some (text, score, metadata) ->
       exists block,
         nth_error blocks i = Some block /\
         block_of (i + 1) text score block) /\
    result_of (retrieve_relevant_context similarity_search query top_k) =
      Returns
        (match blocks with
         | [] =>
             lit "No relevant medical information found in the knowledge base."
         | first :: rest =>
             [nl; nl] ++ repeat 61 50 ++ first ++
             concat (map (fun block => [nl; nl] ++ block) rest)
         end).
Proof.
  intros Hsearch Hfew. exists (blocks_of results).
  split; [apply blocks_of_length|].
  split; [now rewrite blocks_of_length|].
  split; [apply blocks_of_formatted|].
  split; [apply blocks_of_nth_all|]. split.
  - intros i text score metadata Hi.
    eexists. split; [exact (blocks_of_nth _ _ _ _ _ Hi)|].
    exists (str_of_nat (i + 1)), (format_2f score), (strip text).
    split; [reflexivity|]. split; [apply str_of_nat_numeral|].
    split; [apply format_2f_two_decimals | apply strip_trimmed].
  - destruct results as [|r others].
    + now rewrite (retrieve_none _ _ Hsearch).
    + rewrite (retrieve_some _ _ _ _ Hsearch). cbn [result_of snd].
      pose proof (blocks_of_length (r :: others)) as Hlen.
      destruct (blocks_of (r :: others)) as [|first rest];
        [discriminate Hlen|].
      unfold divider. now rewrite join_concat.
Qed.

(** *** Generation *)

Lemma retrieve_returns (query : pystr) (top_k : Z)
      (results : list (ScoredResult Metadata)) :
  similarity_search query top_k = Returns results ->
  retrieve_relevant_context similarity_search query top_k =
  (retrieval_trace query top_k results, Returns (context_of results)).
Proof.
  intros H. destruct results as [|r rest].
  - now rewrite (retrieve_none _ _ H).
  - now rewrite (retrieve_some _ _ _ _ H).
Qed.

(** Once the search has answered, the prompt is filled and the endpoint
    is called with it, whatever the question and the chunks hold. *)
Lemma generate_steps_after_retrieval (query : pystr) (groq_client : Groq)
      (results : list (ScoredResult Metadata)) :
  similarity_search query 4 = Returns results ->
  generate_steps similarity_search query groq_client =
  (retrieval_trace query 4 results ++
   CompletionCall (completion_request (prompt_of (context_of results) query)) ::
   fst (after_completion
          (chat_completions_create groq_client
             (completion_request (prompt_of (context_of results) query)))),
   snd (after_completion
          (chat_completions_create groq_client
             (completion_request (prompt_of (context_of results) query))))).
Proof.
  intros H. unfold generate_steps. rewrite (retrieve_returns _ _ _ H).
  cbv zeta. run.
  change (str_format create_medical_prompt_template
            [(lit "context", context_of results); (lit "question", query)])
    with (compose (context_of results) query).
  rewrite compose_returns. fold (prompt_of (context_of results) query).
  run. unfold after_completion.
  destruct (chat_completions_create groq_client _) as [[[|[[response|]] more]]|e|];
    reflexivity.
Qed.

Lemma generate_steps_retrieval_raises (query : pystr) (groq_client : Groq)
      (e : exn) :
  similarity_search query 4 = Raises e ->
  generate_steps similarity_search query groq_client =
  ([Print (retrieving_line query); SearchCall query 4], Raises e).
Proof.
  intros H. unfold generate_steps. now rewrite (retrieve_raises _ _ _ H).
Qed.

(** [except Exception] turns a failure of the steps into the apology. *)
Lemma generate_handles (query : pystr) (groq_client : Groq)
      (t : list event) (e : exn) :
  generate_steps similarity_search query groq_client = (t, Raises e) ->
  is_Exception e = true ->
  generate_medical_response similarity_search query groq_client =
  (Print (lit "Generating response for query...") :: t ++ [Print (error_line e)],
   Returns apology).
Proof.
  intros H He. unfold generate_medical_response. rewrite H. run.
  now rewrite He.
Qed.

Lemma generate_passes (query : pystr) (groq_client : Groq)
      (t : list event) (answer : pystr) :
  generate_steps similarity_search query groq_client = (t, Returns answer) ->
  generate_medical_response similarity_search query groq_client =
  (Print (lit "Generating response for query...") :: t, Returns answer).
Proof.
  intros H. unfold generate_medical_response. rewrite H. reflexivity.
Qed.

Lemma try_except_not_Exception {A} (m : M A) (handler : exn -> M A) (e : exn) :
  (forall e', exists t a, handler e' = (t, Returns a)) ->
  result_of (try_except m handler) = Raises e -> is_Exception e = false.
Proof.
  intros Hh. destruct m as [t [a|e'|]]; cbn [try_except result_of snd];
    try discriminate.
  destruct (is_Exception e') eqn:E.
  - destruct (Hh e') as [t' [a ->]]. discriminate.
  - cbn [snd]. intros H. now injection H as <-.
Qed.

(** What the hypotheses of [step_fails] fix, once the search returned. *)
Lemma retrieval_returned (query : pystr) (context : pystr) :
  result_of (retrieve_relevant_context similarity_search query 4) =
    Returns context ->
  exists results,
    similarity_search query 4 = Returns results /\ context = context_of results.
Proof.
  destruct (similarity_search query 4) as [results|e|] eqn:E.
  - rewrite (retrieve_returns _ _ _ E). cbn [result_of snd].
    intros H. injection H as <-. now exists results.
  - rewrite (retrieve_raises _ _ _ E). discriminate.
  - unfold retrieve_relevant_context. run. rewrite E. discriminate.
Qed.

Lemma prompt_filled (context question prompt : pystr) :
  str_format create_medical_prompt_template
    [(lit "context", context); (lit "question", question)] = Returns prompt ->
  prompt = prompt_of context question.
Proof.
  change (str_format create_medical_prompt_template
            [(lit "context", context); (lit "question", question)])
    with (compose context question).
  rewrite compose_returns. intros H. now injection H as <-.
Qed.

Lemma step_fails_raises (query : pystr) (groq_client : Groq) (e : exn) :
  step_fails similarity_search query groq_client e ->
  exists t, generate_steps similarity_search query groq_client = (t, Raises e).
Proof.
  intros [H | context Hc Hf | context prompt Hc Hf He
          | context prompt Hc Hf Ha -> | context prompt more Hc Hf Ha ->].
  - eexists. apply generate_steps_retrieval_raises, H.
  - change (str_format create_medical_prompt_template
              [(lit "context", context); (lit "question", query)])
      with (compose context query) in Hf.
    rewrite compose_returns in Hf. discriminate.
  - destruct (retrieval_returned _ _ Hc) as [results [Hs ->]].
    apply prompt_filled in Hf. subst prompt.
    rewrite (generate_steps_after_retrieval _ groq_client _ Hs), He.
    eexists. reflexivity.
  - destruct (retrieval_returned _ _ Hc) as [results [Hs ->]].
    apply prompt_filled in Hf. subst prompt.
    rewrite (generate_steps_after_retrieval _ groq_client _ Hs), Ha.
    eexists. reflexivity.
  - destruct (retrieval_returned _ _ Hc) as [results [Hs ->]].
    apply prompt_filled in Hf. subst prompt.
    rewrite (generate_steps_after_retrieval _ groq_client _ Hs), Ha.
    eexists. reflexivity.
Qed.


Lemma context_contains_chunk (results : list (ScoredResult Metadata))
      (text : pystr) (score : float) (metadata : Metadata) :
  In (text, score, metadata) results ->
  contains (strip text) (context_of results) = true.
Proof.
  intros Hin. destruct results as [|r rest]; [contradiction|].
  apply In_nth_error in Hin. destruct Hin as [i Hi].
  pose proof (blocks_of_nth _ _ _ _ _ Hi) as Hb.
  apply nth_error_In in Hb.
  apply (join_contains [nl; nl]) in Hb.
  eapply contains_trans; [|eapply contains_trans; [exact Hb|]].
  - apply contains_spec.
    exists (lit "[Source " ++ str_of_nat (i + 1) ++ lit " - Relevance: " ++
            format_2f score ++ lit "]" ++ [nl]), [].
    now rewrite app_nil_r, <- !app_assoc.
  - apply contains_spec. exists ([nl; nl] ++ divider), [].
    unfold context_of. now rewrite app_nil_r, <- !app_assoc.
Qed.

(** C10, as amended.  Braces in the question or in a chunk do not make
    the filling of the template fail: the values of the keyword
    arguments are inserted as they are.  Whenever the search answers,
    the prompt is filled, holds the question and every trimmed chunk
    text as they are, and the endpoint is called with it; a readable
    answer is then returned cleaned, not the apology. *)
Theorem braces_reach_completion_endpoint
        (query : pystr) (groq_client : Groq)
        (results : list (ScoredResult Metadata)) :
  similarity_search query 4 = Returns results ->
  exists context prompt,
    result_of (retrieve_relevant_context similarity_search query 4) =
      Returns context /\
    str_format create_medical_prompt_template
      [(lit "context", context); (lit "question", query)] = Returns prompt /\
    contains query prompt = true /\
    (forall text score metadata,
       In (text, score, metadata) results ->
       contains (strip text) prompt = true) /\
    In (CompletionCall (completion_request prompt))
       (trace_of (generate_medical_response similarity_search query groq_client)) /\
    (forall response more,
       chat_completions_create groq_client (completion_request prompt) =
         Returns {| choices := {| message_content := Some response |} :: more |} ->
       result_of (generate_medical_response similarity_search query groq_client) =
         Returns (format_medical_response response)).
Proof.
  intros Hs. exists (context_of results), (prompt_of (context_of results) query).
  pose proof (generate_steps_after_retrieval query groq_client _ Hs) as Hsteps.
  split; [now rewrite (retrieve_returns _ _ _ Hs)|].
  split; [apply compose_returns|]. split; [|split; [|split]].
  - apply contains_spec.
    exists (prompt_head ++ context_of results ++ prompt_middle), prompt_tail.
    unfold prompt_of. now rewrite <- !app_assoc.
  - intros text score metadata Hin.
    apply (contains_trans _ (context_of results));
      [eapply context_contains_chunk; eassumption|].
    apply contains_spec.
    now exists prompt_head, (prompt_middle ++ query ++ prompt_tail).
  - unfold generate_medical_response. rewrite Hsteps.
    set (answer := after_completion _).
    assert (Hin : In (CompletionCall
                        (completion_request (prompt_of (context_of results) query)))
                     (retrieval_trace query 4 results ++
                      CompletionCall
                        (completion_request (prompt_of (context_of results) query))
                      :: fst answer)).
    { apply in_or_app. right. now left. }
    destruct (snd answer) as [a|e|];
      cbn [try_except bind print emit trace_of fst app];
      [right; exact Hin | | right; exact Hin].
    destruct (is_Exception e); cbn [print emit bind ret fst snd app];
      [|right; exact Hin].
    right. apply in_or_app. left. exact Hin.
  - intros response more Ha.
    unfold generate_medical_response. rewrite Hsteps, Ha. reflexivity.
Qed.

(** *** The handler *)

(** Every question that passes the two checks of the handler ends in
    the answer for an internal error: the call of
    [generate_medical_response] passes four arguments to a function of
    two. *)
Lemma query_valid_question (now : pystr) (client : Groq)
      (items : list (pystr * json)) (s : pystr) :
  dict_lookup items (lit "question") = Some (JString s) ->
  is_empty (strip s) = false ->
  validate_medical_query lower_nonascii (strip s) = true ->
  query lower_nonascii similarity_search now client (JObject items) =
  ([Print (lit "[" ++ now ++ lit "] Error during response generation: " ++
           arity_message)],
   Returns {| body := [(lit "error", lit "Internal server error")];
              status := 500 |}).
Proof.
  intros Hq Hne Hv. unfold query. cbn [json_get]. rewrite Hq.
  cbn [bind ret json_strip]. rewrite Hne, Hv. reflexivity.
Qed.

(** C1, the code at the question of the claim.  The handler answers
    the error payload with status 500 and calls neither the search nor
    the endpoint, whatever they would answer. *)
Theorem query_pneumonia_internal_server_error (now : pystr) (client : Groq) :
  query lower_nonascii similarity_search now client
    (JObject [(lit "question",
               JString (lit "What are the symptoms of pneumonia?"))]) =
  ([Print (lit "[" ++ now ++ lit "] Error during response generation: " ++
           lit "generate_medical_response() takes 2 positional arguments but 4 were given")],
   Returns {| body := [(lit "error", lit "Internal server error")];
              status := 500 |}) /\
  validate_medical_query lower_nonascii
    (lit "What are the symptoms of pneumonia?") = true.
Proof.
  split; [|reflexivity].
  apply (query_valid_question now client _
           (lit "What are the symptoms of pneumonia?")); reflexivity.
Qed.

End PipelineProperties.

(** * The theorems at the sample store and clients *)



(** C6 at one word in two spellings. *)
Lemma validate_medical_query_iff_witness :
  Forall2 same_letter (lit "Fever") (lit "fEVER") /\
  validate_medical_query ascii_only (lit "Fever") =
  validate_medical_query ascii_only (lit "fEVER") /\
  validate_medical_query ascii_only (lit "fEVER") = true.
Proof.
  assert (Hsame : Forall2 same_letter (lit "Fever") (lit "fEVER")).
  { repeat constructor; unfold same_letter; cbn; lia. }
  assert (Hascii : forall s, forallb (fun c => c <? 128) s = true ->
                             forall c, In c s -> c < 128).
  { intros s Hs c Hc. rewrite forallb_forall in Hs.
    apply N.ltb_lt. now apply Hs. }
  split; [exact Hsame|]. split; [|reflexivity].
  apply (proj1 (proj2 (proj2 (proj2 (proj2
           (validate_medical_query_iff ascii_only)))))
           (lit "Fever") (lit "fEVER"));
    [apply Hascii; reflexivity | apply Hascii; reflexivity | exact Hsame].
Defined.

(** C5 at the store of two chunks: the score 0.875 is shown as [0.88]
    and 0.5 as [0.50], the ranks are 1 and 2. *)
Lemma retrieve_relevant_context_blocks_witness :
  sample_store (lit "what causes fever") 4 = Returns sample_chunks /\
  sample_chunks <> [] /\
  result_of (retrieve_relevant_context sample_store
               (lit "what causes fever") 4) =
    Returns ([nl; nl] ++
             lit "==================================================" ++
             lit "[Source 1 - Relevance: 0.88]" ++ [nl] ++
             lit "Fever is a rise of body temperature." ++ [nl; nl] ++
             lit "[Source 2 - Relevance: 0.50]" ++ [nl] ++
             lit "Use {braces} } with care") /\
  exists first rest,
    result_of (retrieve_relevant_context sample_store
                 (lit "what causes fever") 4) =
      Returns ([nl; nl] ++ repeat 61 50 ++ first ++
               concat (map (fun block => [nl; nl] ++ block) rest)) /\
    length (first :: rest) = length sample_chunks /\
    forall i text score metadata,
      nth_error sample_chunks i = Some (text, score, metadata) ->
      exists shown_rank shown_score trimmed,
        nth_error (first :: rest) i =
          Some (lit "[Source " ++ shown_rank ++ lit " - Relevance: " ++
                shown_score ++ lit "]" ++ [nl] ++ trimmed) /\
        shown_rank = str_of_nat (i + 1) /\
        numeral_of (N.of_nat (i + 1)) shown_rank /\
        shown_score = format_2f score /\
        two_decimals_of score shown_score /\
        trimmed = strip text /\
        trimmed_of text trimmed.
Proof.
  split; [reflexivity|]. split; [discriminate|]. split; [reflexivity|].
  apply (retrieve_relevant_context_blocks unit sample_store
           (lit "what causes fever") 4 sample_chunks);
    [reflexivity | discriminate].
Defined.

(** C7 at the empty store. *)
Lemma retrieve_relevant_context_no_results_witness :
  empty_store (lit "what causes fever") 5 = Returns [] /\
  result_of (retrieve_relevant_context empty_store
               (lit "what causes fever") 5) =
    Returns (lit "No relevant medical information found in the knowledge base.").
Proof.
  split; [reflexivity|].
  apply (retrieve_relevant_context_no_results unit empty_store
           (lit "what causes fever") 5).
  reflexivity.
Defined.

(** C8 at the store of two chunks, asked for four: two blocks. *)
Lemma retrieve_relevant_context_fewer_than_top_k_witness :
  sample_store (lit "what causes fever") 4 = Returns sample_chunks /\
  (Z.of_nat (length sample_chunks) < 4)%Z /\
  exists blocks,
    length blocks = length sample_chunks /\
    (Z.of_nat (length blocks) < 4)%Z /\
    Forall formatted_block blocks /\
    (forall i, nth_error blocks i =
               option_map (context_piece (i + 1)) (nth_error sample_chunks i)) /\
    (forall i text score metadata,
       nth_error sample_chunks i = Some (text, score, metadata) ->
       exists block,
         nth_error blocks i = Some block /\
         block_of (i + 1) text score block) /\
    result_of (retrieve_relevant_context sample_store
                 (lit "what causes fever") 4) =
      Returns
        (match blocks with
         | [] =>
             lit "No relevant medical information found in the knowledge base."
         | first :: rest =>
             [nl; nl] ++ repeat 61 50 ++ first ++
             concat (map (fun block => [nl; nl] ++ block) rest)
         end).
Proof.
  split; [reflexivity|]. split; [reflexivity|].
  apply (retrieve_relevant_context_fewer_than_top_k unit sample_store
           (lit "what causes fever") 4 sample_chunks); reflexivity.
Defined.


(** C10 at a question with an open brace. *)
Lemma braces_reach_completion_endpoint_witness :
  sample_store (lit "what is {") 4 = Returns sample_chunks /\
  exists context prompt,
    result_of (retrieve_relevant_context sample_store (lit "what is {") 4) =
      Returns context /\
    str_format create_medical_prompt_template
      [(lit "context", context); (lit "question", lit "what is {")] =
      Returns prompt /\
    contains (lit "what is {") prompt = true /\
    (forall text score metadata,
       In (text, score, metadata) sample_chunks ->
       contains (strip text) prompt = true) /\
    In (CompletionCall (completion_request prompt))
       (trace_of (generate_medical_response sample_store (lit "what is {")
                    answering_client)) /\
    (forall response more,
       chat_completions_create answering_client (completion_request prompt) =
         Returns {| choices := {| message_content := Some response |} :: more |} ->
       result_of (generate_medical_response sample_store (lit "what is {")
                    answering_client) =
         Returns (format_medical_response response)).
Proof.
  split; [reflexivity|].
  apply (braces_reach_completion_endpoint unit sample_store (lit "what is {")
           answering_client sample_chunks).
  reflexivity.
Defined.

(** C10, as the claim states it, fails.  Filling the template raises
    for no question, with a brace or without; and the question
    [what is {], with a chunk that holds braces, passes the validator,
    reaches the endpoint and is answered, not apologised for. *)
Lemma brace_question_is_answered :
  ~ (exists context question e,
       In lbrace question /\
       str_format create_medical_prompt_template
         [(lit "context", context); (lit "question", question)] = Raises e) /\
  In lbrace (lit "what is {") /\
  validate_medical_query ascii_only (lit "what is {") = true /\
  (exists prompt,
     contains (lit "what is {") prompt = true /\
     contains (lit "Use {braces} } with care") prompt = true /\
     In (CompletionCall (completion_request prompt))
        (trace_of (generate_medical_response sample_store (lit "what is {")
                     answering_client))) /\
  result_of (generate_medical_response sample_store (lit "what is {")
               answering_client) =
    Returns (lit "Take rest and drink water.") /\
  lit "Take rest and drink water." <> apology.
Proof.
  split.
  { intros [context [question [e [_ H]]]].
    change (str_format create_medical_prompt_template
              [(lit "context", context); (lit "question", question)])
      with (compose context question) in H.
    rewrite compose_returns in H. discriminate H. }
  split; [vm_compute; tauto|]. split; [reflexivity|]. split.
  { exists (prompt_of (context_of sample_chunks) (lit "what is {")).
    split; [vm_compute; reflexivity|]. split; [vm_compute; reflexivity|].
    vm_compute. tauto. }
  split; [vm_compute; reflexivity|].
  intros H. apply (f_equal (@length codepoint)) in H.
  vm_compute in H. discriminate H.
Qed.

(** * Further properties *)

(** ** [format_medical_response]: what it removes and what it keeps *)

Lemma subseq_refl (s : pystr) : subseq s s.
Proof. induction s; [constructor | now apply subseq_keep]. Qed.

Lemma subseq_trans (a b c : pystr) : subseq a b -> subseq b c -> subseq a c.
Proof.
  intros Hab Hbc. revert a Hab.
  induction Hbc as [|x b c Hbc IH|x b c Hbc IH]; intros a Hab.
  - exact Hab.
  - constructor. now apply IH.
  - inversion Hab; subst.
    + apply subseq_skip. now apply IH.
    + apply subseq_keep. now apply IH.
Qed.

Lemma subseq_length (s t : pystr) : subseq s t -> (length s <= length t)%nat.
Proof. induction 1; simpl; lia. Qed.

Lemma subseq_nil_l (t : pystr) : subseq [] t.
Proof. induction t; [constructor | now apply subseq_skip]. Qed.

Lemma subseq_app (a a' b b' : pystr) :
  subseq a a' -> subseq b b' -> subseq (a ++ b) (a' ++ b').
Proof.
  intros Ha Hb. induction Ha; simpl;
    [assumption | now apply subseq_skip | now apply subseq_keep].
Qed.

Lemma subseq_middle (pre s post : pystr) : subseq s (pre ++ s ++ post).
Proof.
  rewrite <- (app_nil_l s) at 1. apply subseq_app; [apply subseq_nil_l|].
  rewrite <- (app_nil_r s) at 1. apply subseq_app;
    [apply subseq_refl | apply subseq_nil_l].
Qed.

Lemma subseq_filter (f : codepoint -> bool) (s : pystr) : subseq (filter f s) s.
Proof.
  induction s as [|c s IH]; simpl; [constructor|].
  destruct (f c); [now apply subseq_keep | now apply subseq_skip].
Qed.

Lemma subseq_collapse_once (s : pystr) : subseq (collapse_once s) s.
Proof.
  induction s as [|rest IH|a rest Hmiss IH] using collapse_once_induction.
  - constructor.
  - rewrite collapse_once_hit.
    now apply subseq_keep, subseq_keep, subseq_skip.
  - rewrite (collapse_once_miss _ _ Hmiss). now apply subseq_keep.
Qed.

Lemma subseq_strip (s : pystr) : subseq (strip s) s.
Proof.
  destruct (strip_decompose s) as [pre [post H]].
  rewrite H at 2. apply subseq_middle.
Qed.

Lemma kept_lstrip (s : pystr) : filter kept (lstrip s) = filter kept s.
Proof.
  induction s as [|c s IH]; [reflexivity|]. cbn [lstrip filter].
  destruct (isspace c) eqn:E; [|reflexivity].
  unfold kept at 2. now rewrite E, andb_false_r.
Qed.

Lemma kept_strip (s : pystr) : filter kept (strip s) = filter kept s.
Proof.
  unfold strip, rstrip.
  rewrite filter_rev, kept_lstrip, <- filter_rev, rev_involutive.
  apply kept_lstrip.
Qed.

Lemma kept_collapse_once (s : pystr) :
  filter kept (collapse_once s) = filter kept s.
Proof.
  induction s as [|rest IH|a rest Hmiss IH] using collapse_once_induction.
  - reflexivity.
  - rewrite collapse_once_hit. cbn [filter]. now rewrite IH.
  - rewrite (collapse_once_miss _ _ Hmiss). cbn [filter]. now rewrite IH.
Qed.

Lemma kept_remove_emphasis (s : pystr) :
  filter kept (remove_emphasis s) = filter kept s.
Proof.
  induction s as [|c s IH]; [reflexivity|]. cbn [remove_emphasis filter].
  fold (remove_emphasis s). unfold kept at 2.
  destruct (c =? star) eqn:E; cbn [negb andb].
  - exact IH.
  - cbn [filter]. unfold kept at 1. rewrite E. cbn [negb andb].
    now rewrite IH.
Qed.

(** X1.  The result of [format_medical_response] is the text with some
    code points left out: it adds none and moves none, so it is never
    longer than the text. *)
Theorem format_medical_response_subsequence (s : pystr) :
  subseq (format_medical_response s) s /\
  (length (format_medical_response s) <= length s)%nat.
Proof.
  assert (H : subseq (format_medical_response s) s).
  { rewrite format_medical_response_steps.
    eapply subseq_trans; [apply subseq_strip|].
    eapply subseq_trans; [apply subseq_collapse_once|].
    apply subseq_filter. }
  split; [exact H | exact (subseq_length _ _ H)].
Qed.

Lemma format_medical_response_kept (s : pystr) :
  filter kept (format_medical_response s) = filter kept s.
Proof.
  rewrite format_medical_response_steps.
  now rewrite kept_strip, kept_collapse_once, kept_remove_emphasis.
Qed.

(** X2.  [format_medical_response] drops nothing but stars and white
    space: the other code points of the text are all in the result, in
    their order, and none of them is lost. *)
Theorem format_medical_response_keeps_text (s : pystr) :
  filter kept (format_medical_response s) = filter kept s /\
  forall c, In c s -> c <> star -> isspace c = false ->
            In c (format_medical_response s).
Proof.
  split; [apply format_medical_response_kept|].
  intros c Hin Hstar Hspace.
  assert (Hk : In c (filter kept s)).
  { apply filter_In. split; [exact Hin|]. unfold kept.
    apply N.eqb_neq in Hstar. now rewrite Hstar, Hspace. }
  rewrite <- format_medical_response_kept in Hk.
  now apply filter_In in Hk.
Qed.

Lemma filter_kept_nil (s : pystr) :
  filter kept s = [] <-> forallb star_or_space s = true.
Proof.
  induction s as [|c s IH]; [now split|]. cbn [filter forallb].
  unfold kept at 1, star_or_space at 1.
  destruct (c =? star), (isspace c); cbn [negb andb orb];
    try exact IH; split; discriminate.
Qed.

(** X3.  The result is the empty string exactly when the text holds
    nothing but stars and white space (the empty text included). *)
Theorem format_medical_response_empty_iff (s : pystr) :
  format_medical_response s = [] <-> forallb star_or_space s = true.
Proof.
  rewrite <- filter_kept_nil, <- (format_medical_response_kept s).
  split; [now intros -> |].
  intros Hk. destruct (format_medical_response s) as [|c rest] eqn:E;
    [reflexivity | exfalso].
  assert (Hstar : c <> star).
  { intros ->. apply (format_medical_response_no_star s). rewrite E. now left. }
  assert (Hspace : isspace c = false).
  { assert (Hs : strip (c :: rest) = c :: rest).
    { rewrite <- E, format_medical_response_steps. apply strip_idem. }
    unfold strip in Hs. destruct (isspace c) eqn:Ec; [|reflexivity].
    exfalso. destruct (lstrip (c :: rest)) as [|d more] eqn:El.
    - discriminate Hs.
    - assert (Hd : isspace d = false) by (eapply lstrip_head; exact El).
      rewrite (rstrip_nonspace d more Hd) in Hs. injection Hs as -> _.
      congruence. }
  cbn [filter] in Hk. unfold kept at 1 in Hk.
  apply N.eqb_neq in Hstar. rewrite Hstar, Hspace in Hk. discriminate Hk.
Qed.

(** ** [validate_medical_query]: what passes and what cannot *)

Lemma lower_app (lower_nonascii : codepoint -> pystr) (a b : pystr) :
  lower lower_nonascii (a ++ b) =
  lower lower_nonascii a ++ lower lower_nonascii b.
Proof. unfold lower. apply flat_map_app. Qed.

Lemma contains_length (p s : pystr) :
  contains p s = true -> (length p <= length s)%nat.
Proof.
  intros H. apply contains_spec in H. destruct H as [pre [post ->]].
  rewrite !length_app. lia.
Qed.

Lemma medical_indicators_length (indicator : pystr) :
  In indicator medical_indicators -> (4 <= length indicator)%nat.
Proof.
  assert (H : forallb (fun i => 4 <=? length i)%nat medical_indicators = true)
    by reflexivity.
  rewrite forallb_forall in H. intros Hin. apply Nat.leb_le. now apply H.
Qed.

(** X4.  A query that passes the validator still passes with any text
    put before it and after it: one listed term anywhere in the query is
    enough. *)
Theorem validate_medical_query_surrounded
        (lower_nonascii : codepoint -> pystr) (query pre post : pystr) :
  validate_medical_query lower_nonascii query = true ->
  validate_medical_query lower_nonascii (pre ++ query ++ post) = true.
Proof.
  unfold validate_medical_query. cbv zeta. rewrite !existsb_exists.
  intros [indicator [Hin Hc]]. exists indicator. split; [exact Hin|].
  rewrite !lower_app. apply (contains_trans _ _ _ Hc).
  apply contains_spec.
  now exists (lower lower_nonascii pre), (lower lower_nonascii post).
Qed.

(** X5.  A query whose lower-cased form has fewer than four code
    points is rejected: no listed term is that short.  The empty query
    is such a query. *)
Theorem validate_medical_query_short
        (lower_nonascii : codepoint -> pystr) (query : pystr) :
  (length (lower lower_nonascii query) < 4)%nat ->
  validate_medical_query lower_nonascii query = false.
Proof.
  intros Hlen. unfold validate_medical_query. cbv zeta.
  destruct (existsb _ medical_indicators) eqn:E; [exfalso | reflexivity].
  apply existsb_exists in E. destruct E as [indicator [Hin Hc]].
  apply contains_length in Hc. apply medical_indicators_length in Hin. lia.
Qed.

(** ** The prompt: nothing is cut *)

(** X6.  The prompt is as long as the fixed text of the template, 560
    code points, and the context and the question together: no length
    is too much for the composer, it cuts nothing. *)
Theorem prompt_length (context question : pystr) :
  exists prompt,
    str_format create_medical_prompt_template
      [(lit "context", context); (lit "question", question)] = Returns prompt /\
    length prompt = (560 + length context + length question)%nat.
Proof.
  exists (prompt_of context question). split; [apply compose_returns|].
  unfold prompt_of. rewrite !length_app.
  change (length prompt_head) with 532%nat.
  change (length prompt_middle) with 17%nat.
  change (length prompt_tail) with 11%nat. lia.
Qed.

(** ** Retrieval and generation: outcomes and calls *)

Lemma search_calls_app (t t' : list event) :
  search_calls (t ++ t') = search_calls t ++ search_calls t'.
Proof. apply flat_map_app. Qed.

Lemma completion_calls_app (t t' : list event) :
  completion_calls (t ++ t') = completion_calls t ++ completion_calls t'.
Proof. apply flat_map_app. Qed.

Lemma handled_trace_calls (r : outcome pystr) :
  search_calls (handled_trace r) = [] /\ completion_calls (handled_trace r) = [].
Proof. destruct r as [a|e|]; cbn; try destruct (is_Exception e); now split. Qed.

Lemma after_completion_calls (answer : outcome ChatCompletion) :
  search_calls (fst (after_completion answer)) = [] /\
  completion_calls (fst (after_completion answer)) = [].
Proof.
  destruct answer as [[[|[[response|]] more]]|e|]; now split.
Qed.

Lemma after_completion_returns (answer : outcome ChatCompletion) (a : pystr) :
  snd (after_completion answer) = Returns a ->
  exists response, a = format_medical_response response.
Proof.
  destruct answer as [[[|[[response|]] more]]|e|]; cbn; try discriminate.
  intros H. injection H as <-. now exists response.
Qed.

Section FurtherPipelineProperties.

Variable lower_nonascii : codepoint -> pystr.
Variable Metadata : Type.
Variable similarity_search : pystr -> Z -> outcome (list (ScoredResult Metadata)).

Lemma retrieve_unmodelled (query : pystr) (top_k : Z) :
  similarity_search query top_k = Unmodelled ->
  retrieve_relevant_context similarity_search query top_k =
  ([Print (retrieving_line query); SearchCall query top_k], Unmodelled).
Proof.
  intros H. unfold retrieve_relevant_context. run. rewrite H. reflexivity.
Qed.


Lemma generate_shape (query : pystr) (groq_client : Groq) :
  generate_medical_response similarity_search query groq_client =
  (Print (lit "Generating response for query...") ::
   trace_of (generate_steps similarity_search query groq_client) ++
   handled_trace (result_of (generate_steps similarity_search query groq_client)),
   handled_result (result_of (generate_steps similarity_search query groq_client))).
Proof.
  unfold generate_medical_response.
  destruct (generate_steps similarity_search query groq_client) as [t [a|e|]];
    cbn [try_except bind print emit trace_of result_of fst snd
         handled_trace handled_result app].
  - now rewrite app_nil_r.
  - destruct (is_Exception e); cbn [bind print emit ret app];
      [reflexivity | now rewrite app_nil_r].
  - now rewrite app_nil_r.
Qed.

Lemma generate_steps_unmodelled (query : pystr) (groq_client : Groq) :
  similarity_search query 4 = Unmodelled ->
  generate_steps similarity_search query groq_client =
  ([Print (retrieving_line query); SearchCall query 4], Unmodelled).
Proof.
  intros H. unfold generate_steps. now rewrite (retrieve_unmodelled _ _ H).
Qed.

Lemma generate_calls_exact (query : pystr) (groq_client : Groq) :
  search_calls
    (trace_of (generate_medical_response similarity_search query groq_client)) =
    [(query, 4%Z)] /\
  completion_calls
    (trace_of (generate_medical_response similarity_search query groq_client)) =
    match similarity_search query 4 with
    | Returns results =>
        [completion_request (prompt_of (context_of results) query)]
    | _ => []
    end.
Proof.
  rewrite generate_shape. cbn [trace_of fst].
  change (Print ?l :: ?t) with ([Print l] ++ t).
  rewrite !search_calls_app, !completion_calls_app.
  destruct (handled_trace_calls
              (result_of (generate_steps similarity_search query groq_client)))
    as [-> ->].
  rewrite !app_nil_r. cbn [search_calls completion_calls flat_map app].
  destruct (similarity_search query 4) as [results|e|] eqn:E.
  - rewrite (generate_steps_after_retrieval _ _ query groq_client _ E).
    cbn [trace_of fst].
    change (?t ++ CompletionCall ?r :: ?u) with (t ++ [CompletionCall r] ++ u).
    rewrite !search_calls_app, !completion_calls_app.
    destruct (after_completion_calls
                (chat_completions_create groq_client
                   (completion_request (prompt_of (context_of results) query))))
      as [-> ->].
    now split.
  - rewrite (generate_steps_retrieval_raises _ _ query groq_client _ E).
    now split.
  - rewrite (generate_steps_unmodelled _ groq_client E).
    now split.
Qed.

(** X8.  One run of [generate_medical_response] calls the search at
    most once, and only with the query and 4; it calls
    [chat.completions.create] at most once, and only after the search
    has answered, with the model [llama-3.3-70b-versatile], one message
    of the role [user] whose content is the filled prompt, the
    temperature nearest to 0.2, at most 1200 tokens, the [top_p]
    nearest to 0.9 and no streaming.  The function has no loop: it
    repeats no call of its own. *)
Theorem generate_medical_response_calls (query : pystr) (groq_client : Groq) :
  (length (search_calls
     (trace_of (generate_medical_response similarity_search query groq_client)))
   <= 1)%nat /\
  (forall call,
     In call (search_calls
       (trace_of (generate_medical_response similarity_search query groq_client))) ->
     call = (query, 4%Z)) /\
  (length (completion_calls
     (trace_of (generate_medical_response similarity_search query groq_client)))
   <= 1)%nat /\
  (forall request,
     In request (completion_calls
       (trace_of (generate_medical_response similarity_search query groq_client))) ->
     exists results context prompt,
       similarity_search query 4 = Returns results /\
       result_of (retrieve_relevant_context similarity_search query 4) =
         Returns context /\
       str_format create_medical_prompt_template
         [(lit "context", context); (lit "question", query)] = Returns prompt /\
       contains query prompt = true /\
       model request = lit "llama-3.3-70b-versatile" /\
       messages request = [ {| role := lit "user"; content := prompt |} ] /\
       temperature request = 0x1.999999999999ap-3%float /\
       max_tokens request = 1200%Z /\
       top_p request = 0x1.ccccccccccccdp-1%float /\
       stream request = false).
Proof.
  destruct (generate_calls_exact query groq_client) as [Hs Hc].
  rewrite Hs, Hc. split; [cbn; lia|]. split.
  { intros call [<- | []]. reflexivity. }
  destruct (similarity_search query 4) as [results|e|] eqn:E;
    (split; [cbn; lia|]).
  - intros request [<- | []].
    exists results, (context_of results), (prompt_of (context_of results) query).
    split; [reflexivity|].
    split; [now rewrite (retrieve_returns _ _ _ _ _ E)|].
    split; [apply compose_returns|]. split; [|repeat split].
    apply contains_spec.
    exists (prompt_head ++ context_of results ++ prompt_middle), prompt_tail.
    unfold prompt_of. now rewrite <- !app_assoc.
  - intros request [].
  - intros request [].
Qed.

Lemma apology_clean : ~ In star apology /\ strip apology = apology.
Proof.
  split; [|reflexivity]. intros H.
  assert (Hb : existsb (N.eqb star) apology = true).
  { apply existsb_exists. exists star. split; [exact H | apply N.eqb_refl]. }
  discriminate Hb.
Qed.

(** X9.  Whatever [generate_medical_response] returns, the cleaned
    answer of the endpoint or the apology, holds no star and no white
    space at its ends. *)
Theorem generate_medical_response_answer_clean
        (query : pystr) (groq_client : Groq) (answer : pystr) :
  result_of (generate_medical_response similarity_search query groq_client) =
    Returns answer ->
  ~ In star answer /\ strip answer = answer.
Proof.
  rewrite generate_shape. cbn [result_of snd].
  destruct (similarity_search query 4) as [results|e|] eqn:E.
  - rewrite (generate_steps_after_retrieval _ _ query groq_client _ E).
    cbn [result_of snd].
    destruct (snd (after_completion _)) as [a|e|] eqn:Ea; cbn [handled_result].
    + intros H. injection H as <-.
      apply after_completion_returns in Ea. destruct Ea as [response ->].
      split; [apply format_medical_response_no_star|].
      rewrite format_medical_response_steps. apply strip_idem.
    + destruct (is_Exception e); intros H; cbv iota in H; [|discriminate H].
      injection H as <-. apply apology_clean.
    + discriminate.
  - rewrite (generate_steps_retrieval_raises _ _ query groq_client _ E).
    cbn [result_of snd handled_result]. destruct (is_Exception e); intros H;
      cbv iota in H; [|discriminate H].
    injection H as <-. apply apology_clean.
  - rewrite (generate_steps_unmodelled _ groq_client E). discriminate.
Qed.

(** X10.  An exception that is not derived from [Exception] (a
    keyboard interrupt, an exit of the interpreter) is not caught: raised
    by the search or by the endpoint, it leaves
    [generate_medical_response] as it is, with no error line and no
    apology. *)
Theorem generate_medical_response_not_caught
        (query : pystr) (groq_client : Groq) (e : exn) :
  is_Exception e = false ->
  (similarity_search query 4 = Raises e ->
   generate_medical_response similarity_search query groq_client =
   ([Print (lit "Generating response for query...");
     Print (retrieving_line query); SearchCall query 4], Raises e)) /\
  (forall results,
     similarity_search query 4 = Returns results ->
     chat_completions_create groq_client
       (completion_request (prompt_of (context_of results) query)) = Raises e ->
     generate_medical_response similarity_search query groq_client =
     (Print (lit "Generating response for query...") ::
      retrieval_trace query 4 results ++
      [CompletionCall
         (completion_request (prompt_of (context_of results) query))],
      Raises e)).
Proof.
  intros He. split.
  - intros E. rewrite generate_shape.
    rewrite (generate_steps_retrieval_raises _ _ query groq_client _ E).
    cbn [trace_of result_of fst snd handled_trace handled_result].
    now rewrite He.
  - intros results E Hc. rewrite generate_shape.
    rewrite (generate_steps_after_retrieval _ _ query groq_client _ E), Hc.
    cbn [after_completion trace_of result_of fst snd handled_trace handled_result].
    rewrite He. now rewrite app_nil_r.
Qed.

(** ** The [/query] handler: the answers it gives *)

Lemma lstrip_nil_iff (s : pystr) : lstrip s = [] <-> forallb isspace s = true.
Proof.
  induction s as [|c s IH]; [now split|]. cbn [lstrip forallb].
  destruct (isspace c); cbn [andb]; [exact IH | split; discriminate].
Qed.

Lemma strip_nil_iff (s : pystr) : strip s = [] <-> forallb isspace s = true.
Proof.
  rewrite <- lstrip_nil_iff. unfold strip.
  destruct (lstrip s) as [|c rest] eqn:E; [now split|].
  assert (Hc : isspace c = false) by (eapply lstrip_head; exact E).
  rewrite (rstrip_nonspace c rest Hc). split; discriminate.
Qed.

Lemma is_empty_strip (s : pystr) :
  is_empty (strip s) = forallb isspace s.
Proof.
  destruct (forallb isspace s) eqn:E.
  - apply strip_nil_iff in E. now rewrite E.
  - destruct (strip s) eqn:Es; [|reflexivity].
    apply strip_nil_iff in Es. congruence.
Qed.

(** The handler on a body whose question is a string. *)
Lemma query_string_question (now : pystr) (client : Groq)
      (items : list (pystr * json)) (s : pystr) :
  dict_lookup items (lit "question") = Some (JString s) ->
  query lower_nonascii similarity_search now client (JObject items) =
  if forallb isspace s then
    ([], Returns (error_response (lit "No question provided") 400))
  else if validate_medical_query lower_nonascii (strip s) then
    ([Print (lit "[" ++ now ++ lit "] Error during response generation: " ++
             arity_message)],
     Returns (error_response (lit "Internal server error") 500))
  else ([], Returns (error_response (lit "Inappropriate query") 400)).
Proof.
  intros Hq. destruct (forallb isspace s) eqn:Es.
  - unfold query. cbn [json_get]. rewrite Hq. cbn [bind ret json_strip].
    now rewrite is_empty_strip, Es.
  - destruct (validate_medical_query lower_nonascii (strip s)) eqn:Ev.
    + apply (query_valid_question _ _ _ now client items s);
        [exact Hq | now rewrite is_empty_strip | exact Ev].
    + unfold query. cbn [json_get]. rewrite Hq. cbn [bind ret json_strip].
      now rewrite is_empty_strip, Es, Ev.
Qed.

Lemma query_missing_question (now : pystr) (client : Groq)
      (items : list (pystr * json)) :
  dict_lookup items (lit "question") = None ->
  query lower_nonascii similarity_search now client (JObject items) =
  ([], Returns (error_response (lit "No question provided") 400)).
Proof.
  intros Hq. unfold query. cbn [json_get]. rewrite Hq. reflexivity.
Qed.

Lemma query_other_question (now : pystr) (client : Groq)
      (items : list (pystr * json)) (v : json) :
  dict_lookup items (lit "question") = Some v ->
  (forall s, v <> JString s) ->
  query lower_nonascii similarity_search now client (JObject items) =
  ([], Raises (no_attribute v (lit "strip"))).
Proof.
  intros Hq Hv. unfold query. cbn [json_get]. rewrite Hq.
  destruct v; try reflexivity. now destruct (Hv s).
Qed.

Lemma query_not_object (now : pystr) (client : Groq) (data : json) :
  (forall items, data <> JObject items) ->
  query lower_nonascii similarity_search now client data =
  ([], Raises (no_attribute data (lit "get"))).
Proof.
  intros Hd. destruct data; try reflexivity. now destruct (Hd items).
Qed.

(** X11.  For a body that is an object, the handler answers
    [No question provided] with status 400, and prints nothing, exactly
    when the body has no question or its question is a string of white
    space only (the empty string included). *)
Theorem query_no_question (now : pystr) (client : Groq)
        (items : list (pystr * json)) :
  query lower_nonascii similarity_search now client (JObject items) =
    ([], Returns {| body := [(lit "error", lit "No question provided")];
                    status := 400 |}) <->
  dict_lookup items (lit "question") = None \/
  exists s, dict_lookup items (lit "question") = Some (JString s) /\
            forallb isspace s = true.
Proof.
  destruct (dict_lookup items (lit "question")) as [v|] eqn:Hq.
  - assert (Hcases : (exists s, v = JString s) \/ (forall s, v <> JString s)).
    { destruct v; try (right; intros s'; discriminate). left. now exists s. }
    destruct Hcases as [[s ->] | Hv].
    + rewrite (query_string_question now client items s Hq). split.
      * destruct (forallb isspace s) eqn:Es.
        -- intros _. right. now exists s.
        -- destruct (validate_medical_query lower_nonascii (strip s));
             intros H; exfalso; injection H as H; discriminate H.
      * intros [H | [s' [H Hs]]]; [discriminate H|].
        injection H as <-. now rewrite Hs.
    + rewrite (query_other_question now client items v Hq Hv). split.
      * discriminate.
      * intros [H | [s [H _]]]; [discriminate H|].
        injection H as ->. now destruct (Hv s).
  - rewrite (query_missing_question now client items Hq). split.
    + intros _. now left.
    + reflexivity.
Qed.

(** X12.  A question that is not empty once trimmed and has no listed
    term is answered [Inappropriate query] with status 400; the handler
    prints nothing and calls nothing.  The validator sees the trimmed
    question. *)
Theorem query_inappropriate (now : pystr) (client : Groq)
        (items : list (pystr * json)) (s : pystr) :
  dict_lookup items (lit "question") = Some (JString s) ->
  forallb isspace s = false ->
  validate_medical_query lower_nonascii (strip s) = false ->
  query lower_nonascii similarity_search now client (JObject items) =
  ([], Returns {| body := [(lit "error", lit "Inappropriate query")];
                  status := 400 |}).
Proof.
  intros Hq Hs Hv. rewrite (query_string_question now client items s Hq).
  now rewrite Hs, Hv.
Qed.

(** X13.  A body that is not an object (null, a list, a string, a
    number), or an object whose question is not a string, makes the
    handler raise [AttributeError]: the two lines that read the question
    stand before the [try] block, so no error payload is made of it. *)
Theorem query_malformed_body (now : pystr) (client : Groq) :
  (forall data,
     (forall items, data <> JObject items) ->
     query lower_nonascii similarity_search now client data =
     ([], Raises (Raised AttributeError
                    (lit "'" ++ type_name data ++
                     lit "' object has no attribute 'get'")))) /\
  (forall items v,
     dict_lookup items (lit "question") = Some v ->
     (forall s, v <> JString s) ->
     query lower_nonascii similarity_search now client (JObject items) =
     ([], Raises (Raised AttributeError
                    (lit "'" ++ type_name v ++
                     lit "' object has no attribute 'strip'")))).
Proof.
  split.
  - intros data Hd. now rewrite (query_not_object now client data Hd).
  - intros items v Hq Hv. now rewrite (query_other_question now client items v Hq Hv).
Qed.

(** X14.  Whatever the body, the handler calls neither the search nor
    the endpoint, and what it returns is an error payload with status
    400 or 500: as [app.py] calls [generate_medical_response], no
    request is answered with [question] and [answer]. *)
Theorem query_never_answers (now : pystr) (client : Groq) (data : json) :
  search_calls
    (trace_of (query lower_nonascii similarity_search now client data)) = [] /\
  completion_calls
    (trace_of (query lower_nonascii similarity_search now client data)) = [] /\
  forall response,
    result_of (query lower_nonascii similarity_search now client data) =
      Returns response ->
    (status response = 400%Z \/ status response = 500%Z) /\
    exists message, body response = [(lit "error", message)].
Proof.
  assert (Hd : (exists items, data = JObject items) \/
               (forall items, data <> JObject items)).
  { destruct data; try (right; intros items'; discriminate). left. now exists items. }
  destruct Hd as [[items ->] | Hd].
  - destruct (dict_lookup items (lit "question")) as [v|] eqn:Hq.
    + assert (Hv : (exists s, v = JString s) \/ (forall s, v <> JString s)).
      { destruct v; try (right; intros s'; discriminate). left. now exists s. }
      destruct Hv as [[s ->] | Hv].
      * rewrite (query_string_question now client items s Hq).
        destruct (forallb isspace s);
          [|destruct (validate_medical_query lower_nonascii (strip s))];
          (split; [reflexivity|]; split; [reflexivity|]);
          intros response H; injection H as <-; cbn [status body error_response];
          (split; [auto | eexists; reflexivity]).
      * rewrite (query_other_question now client items v Hq Hv).
        split; [reflexivity|]. split; [reflexivity|]. discriminate.
    + rewrite (query_missing_question now client items Hq).
      split; [reflexivity|]. split; [reflexivity|].
      intros response H. injection H as <-. cbn [status body error_response].
      split; [auto | eexists; reflexivity].
  - rewrite (query_not_object now client data Hd).
    split; [reflexivity|]. split; [reflexivity|]. discriminate.
Qed.

End FurtherPipelineProperties.

(** ** The start of [app.py] *)

Section StartProperties.

Variables Embeddings VectorStore Chunk : Type.
Variable getenv : pystr -> option pystr.
Variable new_client : pystr -> outcome Groq.
Variable BASE_DIR : pystr.
Variable makedirs : pystr -> outcome unit.
Variable path_exists : pystr -> bool.
Variable load_vector_database :
  pystr -> pystr -> outcome (Embeddings * VectorStore).
Variable process_pdf_complete : pystr -> outcome (list Chunk).
Variable initialize_embeddings : outcome Embeddings.
Variable add_to_vector_database :
  Embeddings -> list Chunk -> outcome VectorStore.
Variable save_vector_database : VectorStore -> pystr -> pystr -> outcome unit.
Variable num_chunks : VectorStore -> outcome pystr.
Variables now_first now_last : pystr.

Local Abbreviation the_start :=
  (startup getenv new_client BASE_DIR makedirs path_exists
     load_vector_database process_pdf_complete initialize_embeddings
     add_to_vector_database save_vector_database num_chunks
     now_first now_last).
Local Abbreviation the_store :=
  (load_or_build BASE_DIR path_exists
     load_vector_database process_pdf_complete initialize_embeddings
     add_to_vector_database save_vector_database num_chunks
     now_first now_last).
Local Abbreviation both_files :=
  (path_exists (VECTOR_DB_PATH BASE_DIR) &&
   path_exists (VECTOR_META_PATH BASE_DIR)).

Ltac start_step :=
  cbn [and_then call started stopped app fst snd In].

(** The events of the start are those of [load_or_build], after the
    three of the key, the client and the directory. *)
Lemma startup_trace (ev : startup_event) :
  In ev (fst the_start) ->
  ev = LoadDotenv \/ (exists key, ev = NewClient key) \/
  (exists path, ev = MakeDirs path) \/
  exists client, In ev (fst (the_store client)).
Proof.
  unfold startup. cbv zeta.
  destruct (getenv (lit "GROQ_API_KEY")) as [[|c key]|]; start_step;
    try (intros [<- | []]; now left).
  destruct (new_client (c :: key)) as [client|e|]; start_step;
    try (intros [<- | [<- | []]]; [now left | right; left; eexists; reflexivity]).
  destruct (makedirs (VECTOR_DB_DIR BASE_DIR)) as [[]|e|]; start_step;
    try (intros [<- | [<- | [<- | []]]];
         [now left | right; left; eexists; reflexivity
          | right; right; left; eexists; reflexivity]).
  destruct (the_store client) as [t r] eqn:E. start_step.
  intros [<- | [<- | [<- | H]]];
    [now left | right; left; eexists; reflexivity
     | right; right; left; eexists; reflexivity |].
  right. right. right. exists client. now rewrite E.
Qed.

Lemma load_or_build_loads (client : Groq) :
  both_files = true ->
  forall ev, In ev (fst (the_store client)) ->
  ev = LoadStore (VECTOR_DB_PATH BASE_DIR) (VECTOR_META_PATH BASE_DIR) \/
  exists line, ev = StartupPrint line.
Proof.
  intros Hb ev. unfold load_or_build. rewrite Hb.
  destruct (load_vector_database _ _) as [[embeddings vector_db]|e|];
    start_step; try (intros [<- | []]; now left).
  destruct (num_chunks vector_db) as [n|e|]; start_step;
    try (intros [<- | []]; now left).
  intros [<- | [<- | []]]; [now left | right; eexists; reflexivity].
Qed.

Lemma load_or_build_builds (client : Groq) :
  both_files = false ->
  forall ev, In ev (fst (the_store client)) ->
  (forall d m, ev <> LoadStore d m) /\
  (forall d m, ev = SaveStore d m ->
     d = VECTOR_DB_PATH BASE_DIR /\ m = VECTOR_META_PATH BASE_DIR).
Proof.
  intros Hb ev. unfold load_or_build. rewrite Hb. start_step.
  destruct (process_pdf_complete _) as [[|chunk chunks]|e|]; start_step;
    try (intros [<- | [<- | []]]; split; intros; discriminate).
  destruct initialize_embeddings as [embeddings|e|]; start_step;
    try (intros [<- | [<- | [<- | []]]]; split; intros; discriminate).
  destruct (add_to_vector_database _ _) as [vector_db|e|]; start_step;
    try (intros [<- | [<- | [<- | [<- | []]]]]; split; intros; discriminate).
  destruct (save_vector_database _ _ _) as [[]|e|]; start_step;
    try (intros [<- | [<- | [<- | [<- | [<- | []]]]]]; split; intros;
         try discriminate;
         match goal with H : SaveStore _ _ = SaveStore _ _ |- _ =>
           now injection H as <- <- end).
  destruct (num_chunks vector_db) as [n|e|]; start_step;
    try (intros [<- | [<- | [<- | [<- | [<- | []]]]]]; split; intros;
         try discriminate;
         match goal with H : SaveStore _ _ = SaveStore _ _ |- _ =>
           now injection H as <- <- end).
  intros [<- | [<- | [<- | [<- | [<- | [<- | []]]]]]]; split; intros;
    try discriminate;
    match goal with H : SaveStore _ _ = SaveStore _ _ |- _ =>
      now injection H as <- <- end.
Qed.

(** X15.  Without a key, unset or empty, the start stops with
    [RuntimeError] right after the environment is read: no client is
    made, no directory, and the store is neither loaded nor built. *)
Theorem startup_without_key :
  getenv (lit "GROQ_API_KEY") = None \/
  getenv (lit "GROQ_API_KEY") = Some [] ->
  the_start =
  ([LoadDotenv],
   Raises (Raised (OtherException (lit "RuntimeError"))
             (lit "GROQ_API_KEY not set in environment"))).
Proof.
  intros [H | H]; unfold startup; cbv zeta; rewrite H; reflexivity.
Qed.

Lemma startup_events_files :
  (forall d m, In (LoadStore d m) (fst the_start) ->
     both_files = true /\
     d = VECTOR_DB_PATH BASE_DIR /\ m = VECTOR_META_PATH BASE_DIR) /\
  (forall p, In (ProcessPdf p) (fst the_start) -> both_files = false) /\
  (forall d m, In (SaveStore d m) (fst the_start) ->
     both_files = false /\
     d = VECTOR_DB_PATH BASE_DIR /\ m = VECTOR_META_PATH BASE_DIR).
Proof.
  split; [|split].
  - intros d m Hin. apply startup_trace in Hin.
    destruct Hin as [H | [[k H] | [[p H] | [client Hin]]]]; try discriminate H.
    destruct both_files eqn:Hb.
    + destruct (load_or_build_loads client Hb _ Hin) as [H | [line H]];
        [|discriminate H].
      injection H as -> ->. now repeat split.
    + destruct (load_or_build_builds client Hb _ Hin) as [H _].
      now destruct (H d m).
  - intros p Hin. apply startup_trace in Hin.
    destruct Hin as [H | [[k H] | [[q H] | [client Hin]]]]; try discriminate H.
    destruct both_files eqn:Hb; [|reflexivity].
    destruct (load_or_build_loads client Hb _ Hin) as [H | [line H]];
      discriminate H.
  - intros d m Hin. apply startup_trace in Hin.
    destruct Hin as [H | [[k H] | [[q H] | [client Hin]]]]; try discriminate H.
    destruct both_files eqn:Hb.
    + destruct (load_or_build_loads client Hb _ Hin) as [H | [line H]];
        discriminate H.
    + destruct (load_or_build_builds client Hb _ Hin) as [_ H].
      split; [reflexivity|]. now apply H.
Qed.

(** The start reaches the store once the key is set, the client made
    and the directory made: its events from there on. *)
Lemma startup_reaches_store (c : codepoint) (key : pystr) (client : Groq) :
  getenv (lit "GROQ_API_KEY") = Some (c :: key) ->
  new_client (c :: key) = Returns client ->
  makedirs (VECTOR_DB_DIR BASE_DIR) = Returns tt ->
  fst the_start =
  [LoadDotenv; NewClient (c :: key); MakeDirs (VECTOR_DB_DIR BASE_DIR)] ++
  fst (the_store client).
Proof.
  intros Hk Hc Hm. unfold startup. cbv zeta. rewrite Hk, Hc, Hm.
  start_step. now destruct (the_store client).
Qed.

(** X16.  Once the key is set and the client and the directory are
    made, the two files of the store decide what the start does.  When
    both exist, the store is loaded from them, the PDF is not processed
    and nothing is saved.  When one of them is missing, the PDF is
    processed and the other file is not loaded; what is saved then goes
    to the two paths of the store.  In no run is a store loaded
    without both files, or the PDF processed with both. *)
Theorem startup_loads_or_builds :
  (forall c key client,
     getenv (lit "GROQ_API_KEY") = Some (c :: key) ->
     new_client (c :: key) = Returns client ->
     makedirs (VECTOR_DB_DIR BASE_DIR) = Returns tt ->
     (both_files = true ->
      In (LoadStore (VECTOR_DB_PATH BASE_DIR) (VECTOR_META_PATH BASE_DIR))
         (fst the_start) /\
      (forall p, ~ In (ProcessPdf p) (fst the_start)) /\
      (forall d m, ~ In (SaveStore d m) (fst the_start))) /\
     (both_files = false ->
      In (ProcessPdf (PDF_PATH BASE_DIR)) (fst the_start) /\
      (forall d m, ~ In (LoadStore d m) (fst the_start)) /\
      (forall d m, In (SaveStore d m) (fst the_start) ->
         d = VECTOR_DB_PATH BASE_DIR /\ m = VECTOR_META_PATH BASE_DIR))) /\
  (forall d m, In (LoadStore d m) (fst the_start) ->
     both_files = true /\
     d = VECTOR_DB_PATH BASE_DIR /\ m = VECTOR_META_PATH BASE_DIR) /\
  (forall p, In (ProcessPdf p) (fst the_start) -> both_files = false) /\
  (forall d m, In (SaveStore d m) (fst the_start) ->
     both_files = false /\
     d = VECTOR_DB_PATH BASE_DIR /\ m = VECTOR_META_PATH BASE_DIR).
Proof.
  destruct startup_events_files as (Hload & Hpdf & Hsave).
  split; [|exact (conj Hload (conj Hpdf Hsave))].
  intros c key client Hk Hc Hm.
  pose proof (startup_reaches_store c key client Hk Hc Hm) as Ht.
  split; intros Hb.
  - split; [|split].
    + rewrite Ht. apply in_or_app. right.
      unfold load_or_build. rewrite Hb.
      destruct (load_vector_database _ _) as [[embeddings vector_db]|e|];
        start_step; try (now left).
      destruct (num_chunks vector_db) as [n|e|]; start_step; now left.
    + intros p Hin. apply Hpdf in Hin. congruence.
    + intros d m Hin. apply Hsave in Hin. destruct Hin as [Hin _]. congruence.
  - split; [|split].
    + rewrite Ht. apply in_or_app. right.
      unfold load_or_build. rewrite Hb. start_step.
      destruct (process_pdf_complete _) as [[|chunk chunks]|e|]; start_step;
        try (right; now left).
      destruct initialize_embeddings as [embeddings|e|]; start_step;
        try (right; now left).
      destruct (add_to_vector_database _ _) as [vector_db|e|]; start_step;
        try (right; now left).
      destruct (save_vector_database _ _ _) as [[]|e|]; start_step;
        try (right; now left).
      destruct (num_chunks vector_db) as [n|e|]; start_step; right; now left.
    + intros d m Hin. apply Hload in Hin. destruct Hin as [Hin _]. congruence.
    + intros d m Hin. apply Hsave in Hin. tauto.
Qed.

(** X17.  When the store has to be built and the PDF gives no chunk,
    the start stops with [RuntimeError] naming the path of the PDF:
    the embeddings are not initialised and nothing is saved. *)
Theorem startup_empty_pdf (c : codepoint) (key : pystr) (client : Groq) :
  getenv (lit "GROQ_API_KEY") = Some (c :: key) ->
  new_client (c :: key) = Returns client ->
  makedirs (VECTOR_DB_DIR BASE_DIR) = Returns tt ->
  both_files = false ->
  process_pdf_complete (PDF_PATH BASE_DIR) = Returns [] ->
  the_start =
  ([LoadDotenv; NewClient (c :: key); MakeDirs (VECTOR_DB_DIR BASE_DIR);
    StartupPrint (lit "[" ++ now_first ++
                  lit "] Vector DB not found, processing PDF...");
    ProcessPdf (PDF_PATH BASE_DIR)],
   Raises (Raised (OtherException (lit "RuntimeError"))
             (lit "Failed to process PDF at " ++ PDF_PATH BASE_DIR))).
Proof.
  intros Hk Hc Hm Hb Hp. unfold startup. cbv zeta. rewrite Hk, Hc, Hm.
  unfold load_or_build. rewrite Hb, Hp. reflexivity.
Qed.

(** X18.  When the start succeeds, the store it holds was loaded from
    the two files, or else it was built from the PDF and saved to the
    two paths before the start ended. *)
Theorem startup_returns (state : AppState Embeddings VectorStore) :
  snd the_start = Returns state ->
  (both_files = true /\
   In (LoadStore (VECTOR_DB_PATH BASE_DIR) (VECTOR_META_PATH BASE_DIR))
      (fst the_start)) \/
  (both_files = false /\
   In (ProcessPdf (PDF_PATH BASE_DIR)) (fst the_start) /\
   In (SaveStore (VECTOR_DB_PATH BASE_DIR) (VECTOR_META_PATH BASE_DIR))
      (fst the_start)).
Proof.
  unfold startup. cbv zeta.
  destruct (getenv (lit "GROQ_API_KEY")) as [[|c key]|]; start_step;
    try discriminate.
  destruct (new_client (c :: key)) as [client|e|]; start_step;
    try discriminate.
  destruct (makedirs (VECTOR_DB_DIR BASE_DIR)) as [[]|e|]; start_step;
    try discriminate.
  unfold load_or_build. destruct both_files eqn:Hb.
  - destruct (load_vector_database _ _) as [[embeddings vector_db]|e|];
      start_step; try discriminate.
    destruct (num_chunks vector_db) as [n|e|]; start_step; try discriminate.
    intros _. left. split; [reflexivity|]. tauto.
  - start_step.
    destruct (process_pdf_complete _) as [[|chunk chunks]|e|]; start_step;
      try discriminate.
    destruct initialize_embeddings as [embeddings|e|]; start_step;
      try discriminate.
    destruct (add_to_vector_database _ _) as [vector_db|e|]; start_step;
      try discriminate.
    destruct (save_vector_database _ _ _) as [[]|e|]; start_step;
      try discriminate.
    destruct (num_chunks vector_db) as [n|e|]; start_step; try discriminate.
    intros _. right. split; [reflexivity|]. tauto.
Qed.

End StartProperties.

(** * The further properties at sample inputs *)

(** X4 at [fever] inside a sentence. *)
Lemma validate_medical_query_surrounded_witness :
  validate_medical_query ascii_only (lit "fever") = true /\
  validate_medical_query ascii_only
    (lit "I dreamt of a " ++ lit "fever" ++ lit " last night") = true.
Proof.
  split; [reflexivity|].
  apply (validate_medical_query_surrounded ascii_only (lit "fever")).
  reflexivity.
Defined.

(** X5 at a query of three letters. *)
Lemma validate_medical_query_short_witness :
  (length (lower ascii_only (lit "Flu")) < 4)%nat /\
  validate_medical_query ascii_only (lit "Flu") = false.
Proof.
  assert (H : (length (lower ascii_only (lit "Flu")) < 4)%nat)
    by (vm_compute; lia).
  split; [exact H|].
  exact (validate_medical_query_short ascii_only (lit "Flu") H).
Defined.

(** X9 at the store of two chunks and the client that answers. *)
Lemma generate_medical_response_answer_clean_witness :
  result_of (generate_medical_response sample_store
               (lit "what causes fever") answering_client) =
    Returns (lit "Take rest and drink water.") /\
  ~ In star (lit "Take rest and drink water.") /\
  strip (lit "Take rest and drink water.") = lit "Take rest and drink water.".
Proof.
  assert (H : result_of (generate_medical_response sample_store
                           (lit "what causes fever") answering_client) =
              Returns (lit "Take rest and drink water."))
    by (vm_compute; reflexivity).
  split; [exact H|].
  exact (generate_medical_response_answer_clean unit sample_store
           (lit "what causes fever") answering_client _ H).
Defined.

(** X10 at the client whose call is interrupted. *)
Lemma generate_medical_response_not_caught_witness :
  is_Exception keyboard_interrupt = false /\
  result_of (generate_medical_response sample_store
               (lit "what causes fever") interrupted_client) =
    Raises keyboard_interrupt.
Proof.
  split; [reflexivity|].
  rewrite (proj2 (generate_medical_response_not_caught unit sample_store
                    (lit "what causes fever") interrupted_client
                    keyboard_interrupt eq_refl)
             sample_chunks eq_refl eq_refl).
  reflexivity.
Defined.

(** X12 at a question about the weather, with blanks around it. *)
Lemma query_inappropriate_witness :
  forallb isspace (lit "  What's the weather?  ") = false /\
  validate_medical_query ascii_only
    (strip (lit "  What's the weather?  ")) = false /\
  query ascii_only sample_store (lit "09:00:00") answering_client
    (JObject [(lit "question", JString (lit "  What's the weather?  "))]) =
  ([], Returns {| body := [(lit "error", lit "Inappropriate query")];
                  status := 400 |}).
Proof.
  split; [reflexivity|]. split; [reflexivity|].
  apply (query_inappropriate ascii_only unit sample_store (lit "09:00:00")
           answering_client _ (lit "  What's the weather?  "));
    reflexivity.
Defined.

(** X13 at the body [null] and at a question that is a number. *)
Lemma query_malformed_body_witness :
  query ascii_only sample_store (lit "09:00:00") answering_client JNull =
    ([], Raises (Raised AttributeError
                   (lit "'NoneType' object has no attribute 'get'"))) /\
  query ascii_only sample_store (lit "09:00:00") answering_client
    (JObject [(lit "question", JInt 5)]) =
    ([], Raises (Raised AttributeError
                   (lit "'int' object has no attribute 'strip'"))).
Proof.
  split.
  - apply (proj1 (query_malformed_body ascii_only unit sample_store
                    (lit "09:00:00") answering_client) JNull).
    intros items. discriminate.
  - apply (proj2 (query_malformed_body ascii_only unit sample_store
                    (lit "09:00:00") answering_client)
             [(lit "question", JInt 5)] (JInt 5)); [reflexivity|].
    intros s. discriminate.
Defined.

(** X15 at the environment without the key. *)
Lemma startup_without_key_witness :
  env_without_key (lit "GROQ_API_KEY") = None /\
  sample_start env_without_key pdf_of_one_chunk =
  ([LoadDotenv],
   Raises (Raised (OtherException (lit "RuntimeError"))
             (lit "GROQ_API_KEY not set in environment"))).
Proof.
  split; [reflexivity|].
  apply (startup_without_key unit (list pystr) pystr env_without_key).
  now left.
Defined.

(** X16 at the machine that holds one of the two files: the PDF is
    processed and the file in place is not loaded. *)
Lemma startup_loads_or_builds_witness :
  index_file_only (lit "/srv/app/data/medical_vector_store.faiss") &&
  index_file_only (lit "/srv/app/data/medical_vector_store.pkl") = false /\
  In (ProcessPdf (lit "/srv/app/Medical_book.pdf"))
     (fst (sample_start env_with_key pdf_of_one_chunk)) /\
  (forall d m, ~ In (LoadStore d m)
                    (fst (sample_start env_with_key pdf_of_one_chunk))).
Proof.
  split; [reflexivity|].
  destruct (proj2 (proj1 (startup_loads_or_builds unit (list pystr) pystr
              env_with_key (fun _ => Returns answering_client) (lit "/srv/app")
              (fun _ => Returns tt) index_file_only
              (fun _ _ => Returns (tt, [])) pdf_of_one_chunk (Returns tt)
              (fun _ chunks => Returns chunks) (fun _ _ _ => Returns tt)
              (fun store => Returns (str_of_nat (length store)))
              (lit "09:00:00") (lit "09:00:05"))
              103 (lit "sk_sample") answering_client
              eq_refl eq_refl eq_refl) eq_refl) as (Hpdf & Hload & _).
  split; [exact Hpdf | exact Hload].
Defined.

(** X17 at the PDF without text, with one of the two files in place. *)
Lemma startup_empty_pdf_witness :
  index_file_only (lit "/srv/app/data/medical_vector_store.faiss") = true /\
  index_file_only (lit "/srv/app/data/medical_vector_store.pkl") = false /\
  snd (sample_start env_with_key pdf_without_text) =
    Raises (Raised (OtherException (lit "RuntimeError"))
              (lit "Failed to process PDF at /srv/app/Medical_book.pdf")).
Proof.
  split; [reflexivity|]. split; [reflexivity|].
  unfold sample_start.
  rewrite (startup_empty_pdf unit (list pystr) pystr env_with_key
             (fun _ => Returns answering_client) (lit "/srv/app")
             (fun _ => Returns tt) index_file_only
             (fun _ _ => Returns (tt, [])) pdf_without_text (Returns tt)
             (fun _ chunks => Returns chunks) (fun _ _ _ => Returns tt)
             (fun store => Returns (str_of_nat (length store)))
             (lit "09:00:00") (lit "09:00:05")
             103 (lit "sk_sample") answering_client
             eq_refl eq_refl eq_refl eq_refl eq_refl).
  reflexivity.
Defined.

(** X18 at the PDF of one chunk: the store is built and saved. *)
Lemma startup_returns_witness :
  (exists state, snd (sample_start env_with_key pdf_of_one_chunk) =
                 Returns state) /\
  In (SaveStore (lit "/srv/app/data/medical_vector_store.faiss")
                (lit "/srv/app/data/medical_vector_store.pkl"))
     (fst (sample_start env_with_key pdf_of_one_chunk)).
Proof.
  assert (H : snd (sample_start env_with_key pdf_of_one_chunk) =
              Returns {| app_client := answering_client;
                         app_embeddings := tt;
                         app_vector_db :=
                           [lit "Fever is a rise of body temperature."] |})
    by reflexivity.
  split; [eexists; exact H|].
  destruct (startup_returns unit (list pystr) pystr env_with_key
              (fun _ => Returns answering_client) (lit "/srv/app")
              (fun _ => Returns tt) index_file_only
              (fun _ _ => Returns (tt, [])) pdf_of_one_chunk (Returns tt)
              (fun _ chunks => Returns chunks) (fun _ _ _ => Returns tt)
              (fun store => Returns (str_of_nat (length store)))
              (lit "09:00:00") (lit "09:00:05") _ H)
    as [[Hb _] | [_ [_ Hs]]].
  - discriminate Hb.
  - exact Hs.
Defined.
